(** * The command layer of the ABOUT tool ([about_tool/cmd.py])

    A shallow embedding of the click callbacks [cli], [inventory], [gen],
    [attrib] and of [log_errors], over an explicit process state: the file
    system, the lines written to stdout, the handlers attached to the file
    logger, the two module globals and a ghost trace of the calls made to the
    collaborator modules ([model], [gen], [attrib], [util]).

    A callback is modelled from its first statement on: the parsing of the
    command line by click, with the checks its parameter types make, comes
    before.  A command returns or raises [KeyError] (a severity missing from
    [severities]) or [OSError] (the log file cannot be removed or opened);
    the collaborators are taken to return. *)

From Stdlib Require Import ZArith Ascii String List Lia.
From stdpp Require Import base option list gmap strings pretty.

Local Open Scope Z_scope.

(** ** Python string methods used by the commands *)

Module Py.

(** [s.endswith(suffix)] *)
Definition endswith (s suffix : string) : bool :=
  let n := String.length s in
  let m := String.length suffix in
  (m <=? n)%nat && String.eqb (String.substring (n - m) m s) suffix.

Definition lower_ascii (c : ascii) : ascii :=
  let n := nat_of_ascii c in
  if ((65 <=? n) && (n <=? 90))%nat then ascii_of_nat (n + 32) else c.

(** [s.lower()] on a byte string *)
Fixpoint lower (s : string) : string :=
  match s with
  | EmptyString => EmptyString
  | String c s' => String (lower_ascii c) (lower s')
  end.

(** Truth value of a string: the empty string is falsy. *)
Definition truthy (s : string) : bool :=
  match s with
  | EmptyString => false
  | String _ _ => true
  end.

(** Truth value of an optional argument whose default is [None] or [False]. *)
Definition truthy_opt (o : option string) : bool :=
  match o with
  | Some s => truthy s
  | None => false
  end.

End Py.

(** ** Data model *)

(** [Error = namedtuple('Error', ['severity', 'message'])] *)
Record Error := mkError { severity : Z; message : string }.

(** Modelled from the spec: the severity constants of the package
    [about_tool/__init__.py], which [cmd.py] imports; the spec gives the scale
    CRITICAL=50 > ERROR=40 > WARNING=30 > INFO=20 > NOTSET=0. *)
Definition CRITICAL : Z := 50.
Definition ERROR : Z := 40.
Definition WARNING : Z := 30.
Definition INFO : Z := 20.
Definition NOTSET : Z := 0.

(** Modelled from the spec: the table [severities] of
    [about_tool/__init__.py], from a severity to its printed name, over the
    five levels the spec defines.  The commands are parametric in the table;
    this one instantiates them. *)
Definition severities_table : gmap Z string :=
  {[ CRITICAL := "CRITICAL"; ERROR := "ERROR"; WARNING := "WARNING";
     INFO := "INFO"; NOTSET := "NOTSET" ]}.

(** [formats = ['csv', 'json']] *)
Definition formats : list string := ["csv"; "json"].

(** ** The file system

  Directory entries name either a directory or a regular file, and a regular
  file is an inode holding lines.  Removing a file drops its name only: a
  handler that still has the file open keeps writing to the inode. *)

Inductive node := File (ino : nat) | Dir.

Record FS := mkFS {
  names : gmap string node;
  inodes : gmap nat (list string)
}.

(** The lines of the regular file at [path]. *)
Definition read_file (f : FS) (path : string) : option (list string) :=
  match names f !! path with
  | Some (File i) => inodes f !! i
  | _ => None
  end.

(** [os.path.exists(path)] *)
Definition path_exists (f : FS) (path : string) : bool :=
  bool_decide (is_Some (names f !! path)).

(** One line appended to an open file. *)
Definition append_line (line : string) (ino : gmap nat (list string)) (i : nat)
  : gmap nat (list string) :=
  alter (λ content, content ++ [line]) i ino.

(** ** The environment of the module

  What [cmd.py] imports and does not define: the version string and the
  severity table of the package, the collaborators of [util], [model],
  [gen] and [attrib], two functions of [os.path], and the logging
  configuration of the process.  A collaborator works on the file system
  and returns. *)

Class Env := {
  (** the parsed metadata records, opaque to this layer *)
  About : Type;
  (** [__version__] *)
  version : string;
  (** [severities], from a severity to its printed name *)
  severities : gmap Z string;
  (** [os.path.dirname] and [os.path.join] *)
  dirname : string → string;
  join : string → string → string;
  (** [logging.disable]'s level (0 unless it was called) and the effective
      level of the file logger (the root logger's, WARNING unless logging
      was configured); this module never changes them *)
  log_disable : Z;
  log_effective_level : Z;
  to_posix : string → string;
  extract_zip : string → FS → string * FS;
  collect_inventory : string → FS → (list Error * list About) * FS;
  to_json : list About → string → FS → unit * FS;
  to_csv : list About → string → FS → unit * FS;
  generate :
    bool → option (string * string) → string → string → FS →
    (list Error * list About) * FS;
  verify_license_files :
    list About → string → FS → (gmap string string * list Error) * FS;
  copy_files : gmap string string → string → FS → unit * FS;
  generate_and_save :
    list About → string → bool → option string → option string → FS →
    list Error * FS
}.

(** ** Exceptions and the command monad *)

Inductive exn :=
| KeyError (key : Z)
| OSError (path : string).

Inductive result (A : Type) :=
| Return (a : A)
| Raise (e : exn).
Arguments Return {A} a.
Arguments Raise {A} e.

Section Commands.

Context `{Env}.

(** The calls a command makes to its collaborators, in order (ghost state). *)
Inductive Call :=
| ExtractZip (location : string)
| CollectInventory (location : string)
| ToJson (abouts : list About) (output : string)
| ToCsv (abouts : list About) (output : string)
| Generate (mapping : bool) (extract_license : option (string * string))
           (location output : string)
| VerifyLicenseFiles (abouts : list About) (license_text_location : string)
| CopyFiles (lic_loc_dict : gmap string string) (output : string)
| GenerateAndSave (abouts : list About) (output : string) (mapping : bool)
                  (template_loc inventory_location : option string).

Record World := mkWorld {
  fs : FS;
  stdout : list string;
  (** handlers attached to [logging.getLogger(__name__ + '_file')],
      each one an open log file *)
  file_handlers : list nat;
  (** the module globals *)
  no_stdout : bool;
  verbosity_num : Z;
  calls : list Call
}.

Definition set_fs (f : FS) (w : World) : World :=
  mkWorld f (stdout w) (file_handlers w) (no_stdout w) (verbosity_num w) (calls w).
Definition set_stdout (o : list string) (w : World) : World :=
  mkWorld (fs w) o (file_handlers w) (no_stdout w) (verbosity_num w) (calls w).
Definition set_file_handlers (h : list nat) (w : World) : World :=
  mkWorld (fs w) (stdout w) h (no_stdout w) (verbosity_num w) (calls w).
Definition set_no_stdout (b : bool) (w : World) : World :=
  mkWorld (fs w) (stdout w) (file_handlers w) b (verbosity_num w) (calls w).
Definition set_verbosity_num (v : Z) (w : World) : World :=
  mkWorld (fs w) (stdout w) (file_handlers w) (no_stdout w) v (calls w).
Definition set_calls (c : list Call) (w : World) : World :=
  mkWorld (fs w) (stdout w) (file_handlers w) (no_stdout w) (verbosity_num w) c.

(** The module as loaded: [no_stdout = False], [verbosity_num = 30]. *)
Definition initial_world (f : FS) : World := mkWorld f [] [] false 30 [].

(** A command transforms the world and returns or raises; the world is
    kept when it raises. *)
Definition M (A : Type) : Type := World → result A * World.

Definition ret {A} (a : A) : M A := λ w, (Return a, w).

Definition bind {A B} (m : M A) (k : A → M B) : M B :=
  λ w, match m w with
       | (Return a, w') => k a w'
       | (Raise e, w') => (Raise e, w')
       end.

Definition raise {A} (e : exn) : M A := λ w, (Raise e, w).

Notation "'let*' x := m 'in' k" := (bind m (λ x, k))
  (at level 10, x name, m at level 100, k at level 200).
Notation "m ;; k" := (bind m (λ _, k))
  (at level 100, right associativity).

Definition get {A} (proj : World → A) : M A := λ w, (Return (proj w), w).

(** [for x in l: body(x)] *)
Fixpoint for_each {A} (body : A → M unit) (l : list A) : M unit :=
  match l with
  | [] => ret tt
  | x :: l' => body x ;; for_each body l'
  end.

(** [click.echo(line)] and [print(line)]: one line on stdout. *)
Definition echo (line : string) : M unit :=
  λ w, (Return tt, set_stdout (stdout w ++ [line]) w).

(** A collaborator works on the file system; the call is recorded. *)
Definition do_call {X} (c : Call) (f : FS → X * FS) (w : World) : X * World :=
  let '(x, f') := f (fs w) in (x, set_calls (calls w ++ [c]) (set_fs f' w)).

Definition call {X} (c : Call) (f : FS → X * FS) : M X :=
  λ w, let '(x, w') := do_call c f w in (Return x, w').

(** *** The operating system and the logging module *)

(** [os.remove(path)]: unlinks a regular file, fails on anything else. *)
Definition os_remove (path : string) : M unit :=
  λ w, match names (fs w) !! path with
       | Some (File _) =>
           (Return tt, set_fs (mkFS (delete path (names (fs w))) (inodes (fs w))) w)
       | _ => (Raise (OSError path), w)
       end.

(** [open(path, 'a')], as [logging.FileHandler(path)] does at once: the
    file is created empty when there is none, which needs its directory. *)
Definition open_append (path : string) : M nat :=
  λ w, match names (fs w) !! path with
       | Some (File i) => (Return i, w)
       | Some Dir => (Raise (OSError path), w)
       | None =>
           match names (fs w) !! dirname path with
           | Some Dir =>
               let i := fresh (dom (inodes (fs w)) ∪ list_to_set (file_handlers w)) in
               (Return i,
                set_fs (mkFS (<[path := File i]> (names (fs w)))
                             (<[i := []]> (inodes (fs w)))) w)
           | _ => (Raise (OSError path), w)
           end
       end.

(** [file_logger.addHandler(file_handler)] *)
Definition addHandler (h : nat) : M unit :=
  λ w, (Return tt, set_file_handlers (file_handlers w ++ [h]) w).

(** [Logger.isEnabledFor(level)] *)
Definition isEnabledFor (level : Z) : bool :=
  negb (level <=? log_disable) && (log_effective_level <=? level).

(** [file_logger.log(level, msg)]: an enabled record is emitted by every
    handler of the logger (the handlers keep their level NOTSET). *)
Definition file_logger_log (level : Z) (msg : string) : M unit :=
  λ w, if isEnabledFor level
       then (Return tt,
             set_fs (mkFS (names (fs w))
                          (foldl (append_line msg) (inodes (fs w)) (file_handlers w))) w)
       else (Return tt, w).

(** [severities[severity]] *)
Definition severities_get (sev : Z) : M string :=
  match severities !! sev with
  | Some name => ret name
  | None => raise (KeyError sev)
  end.

(** ** [log_errors] *)

(** [msg_format % locals()] with [msg_format = '%(sever)s: %(message)s'] *)
Definition msg_format (sever message : string) : string :=
  sever +:+ ": " +:+ message.

Definition LOG_FILENAME : string := "error.log".

(** The body of the loop of [log_errors] for one error. *)
Definition log_error (base_dir : option string) (level : Z) (e : Error) : M unit :=
  let '(mkError severity message) := e in
  if level <=? severity then
    let* sever := severities_get severity in
    let* quiet := get no_stdout in
    (if negb quiet then echo (msg_format sever message) else ret tt) ;;
    if Py.truthy_opt base_dir
    then file_logger_log severity (msg_format sever message)
    else ret tt
  else ret tt.

(** The block [if base_dir:] of [log_errors], which creates [error.log]. *)
Definition create_error_log (base_dir : option string) : M unit :=
  match base_dir with
  | Some d =>
      if Py.truthy d then
        let bdir := to_posix d in
        let log_path := join bdir LOG_FILENAME in
        let* exists_ := get (λ w, path_exists (fs w) log_path) in
        (if exists_ then os_remove log_path else ret tt) ;;
        let* file_handler := open_append log_path in
        addHandler file_handler
      else ret tt
  | None => ret tt
  end.

(** [log_errors(errors, base_dir=False, level=NOTSET)]; [None] stands for
    the default [False] of [base_dir].  The stream handler the function adds
    to the logger of the module receives no record and is left out. *)
Definition log_errors (errors : list Error) (base_dir : option string) (level : Z)
  : M unit :=
  create_error_log base_dir ;;
  for_each (log_error base_dir level) errors.

(** ** The commands *)

(** [cli(verbose, quiet)], the callback of the command group. *)
Definition cli (verbose : Z) (quiet : bool) : M unit :=
  λ w, (Return tt, set_verbosity_num verbose (set_no_stdout quiet w)).

Definition running : string := "Running about-code-tool version " +:+ version.

Definition dquote : string := String "034"%char EmptyString.

(** [if location.lower().endswith('.zip'): location = extract_zip(location)] *)
Definition unzip_location (location : string) : M string :=
  if Py.endswith (Py.lower location) ".zip"
  then call (ExtractZip location) (extract_zip location)
  else ret location.

(** [inventory(overwrite, format, location, output)] *)
Definition inventory (overwrite : bool) (format location output : string) : M unit :=
  echo running ;;
  let* output_exists := get (λ w, path_exists (fs w) output) in
  if output_exists && negb overwrite then
    echo "ERROR: <output> file already exists." ;;
    echo "Select a different file name or use the --overwrite option after the `inventory`." ;;
    echo EmptyString
  else
  let* dir_exists := get (λ w, path_exists (fs w) (dirname output)) in
  if negb dir_exists then
    echo "ERROR: Path to the <output> does not exists. Please check and correct the <output>." ;;
    echo EmptyString
  else
  if negb (bool_decide (format ∈ formats)) then
    echo ("ERROR: Output format: " +:+ format +:+ " is not supported.") ;;
    echo EmptyString
  else
  let collect : M unit :=
    echo ("Collecting the inventory from location: " +:+ location +:+
          " and writing output to: " +:+ output) ;;
    let* location := unzip_location location in
    let* r := call (CollectInventory location) (collect_inventory location) in
    let '(errors, abouts) := r in
    let* errors :=
      (match abouts with
       | [] => ret [mkError ERROR "No ABOUT files is found. Generation halted."]
       | _ :: _ =>
           (if String.eqb format "json"
            then call (ToJson abouts output) (to_json abouts output)
            else call (ToCsv abouts output) (to_csv abouts output)) ;;
           ret errors
       end) in
    let* level := get verbosity_num in
    log_errors errors (Some (dirname output)) level in
  if negb (String.eqb format "json") then
    if negb (Py.endswith output ".csv") then
      echo ("ERROR: <output> must be a CSV file ending with " +:+
            dquote +:+ ".csv" +:+ dquote +:+ ".") ;;
      echo EmptyString
    else collect
  else collect.

(** [errors.append(err)] for every [err] of [l] *)
Definition append_all (errors l : list Error) : list Error :=
  foldl (λ acc err, acc ++ [err]) errors l.

(** The counting loop of [gen]: [if e.severity > 20: lee = lee + 1]. *)
Definition count_lee (errors : list Error) : nat :=
  foldl (λ lee e, if 20 <? severity e then (lee + 1)%nat else lee) 0%nat errors.

(** [gen(mapping, license_text_location, extract_license, location, output)] *)
Definition gen (mapping : bool) (license_text_location : option string)
    (extract_license : option (string * string)) (location output : string) : M unit :=
  echo running ;;
  if negb (Py.endswith location ".csv") && negb (Py.endswith location ".json") then
    echo "ERROR: Input file. Only .csv and .json files are supported." ;;
    echo EmptyString
  else
    echo "Generating ABOUT files..." ;;
    let* r := call (Generate mapping extract_license location output)
                   (generate mapping extract_license location output) in
    let '(errors, abouts) := r in
    let* errors :=
      (match license_text_location with
       | Some ltl =>
           if Py.truthy ltl then
             let* v := call (VerifyLicenseFiles abouts ltl)
                            (verify_license_files abouts ltl) in
             let '(lic_loc_dict, lic_file_err) := v in
             (if negb (bool_decide (lic_loc_dict = ∅))
              then call (CopyFiles lic_loc_dict output) (copy_files lic_loc_dict output)
              else ret tt) ;;
             match lic_file_err with
             | [] => ret errors
             | _ :: _ => ret (append_all (append_all [] errors) lic_file_err)
             end
           else ret errors
       | None => ret errors
       end) in
    let lea := length abouts in
    let lee := count_lee errors in
    echo ("Generated " +:+ pretty lea +:+ " ABOUT files with " +:+ pretty lee +:+
          " errors and/or warning") ;;
    log_errors errors (Some output) NOTSET.

(** [attrib(location, output, template, mapping, inventory_location=None)] *)
Definition attrib (location output : string) (template : option string)
    (mapping : bool) (inventory_location : option string) : M unit :=
  echo running ;;
  echo "Generating attribution..." ;;
  let* location := unzip_location location in
  let* r := call (CollectInventory location) (collect_inventory location) in
  let '(errors, abouts) := r in
  let* no_match_errors :=
    call (GenerateAndSave abouts output mapping template inventory_location)
         (generate_and_save abouts output mapping template inventory_location) in
  log_errors no_match_errors (Some (dirname output)) NOTSET ;;
  echo "Finished.".

(** The subcommands that have a collaborator, with their parsed arguments.
    The stubs [export], [fetch] and [redist] echo two lines and are not
    modelled. *)
Inductive Subcommand :=
| Inventory (overwrite : bool) (format location output : string)
| Gen (mapping : bool) (license_text_location : option string)
      (extract_license : option (string * string)) (location output : string)
| Attrib (location output : string) (template : option string)
         (mapping : bool) (inventory_location : option string).

Definition invoke (c : Subcommand) : M unit :=
  match c with
  | Inventory overwrite format location output =>
      inventory overwrite format location output
  | Gen mapping license_text_location extract_license location output =>
      gen mapping license_text_location extract_license location output
  | Attrib location output template mapping inventory_location =>
      attrib location output template mapping inventory_location
  end.

(** [about [-v LEVEL] [-q] <subcommand> [args]]: click runs the callback of
    the group, then the subcommand. *)
Definition about (verbose : Z) (quiet : bool) (c : Subcommand) : M unit :=
  cli verbose quiet ;; invoke c.

(** The stubs.  [fetch] and [redist] declare no click argument, so click
    cannot supply their parameters; they are modelled as the functions they
    are. *)

(** [export()] *)
Definition export : M unit :=
  echo running ;;
  echo "Exporting zip archive...".

(** [fetch(location)] *)
Definition fetch (location : string) : M unit :=
  echo running ;;
  echo "Updating ABOUT files...".

(** [redist(input_dir, output, inventory_location=None)] *)
Definition redist (input_dir output : string) (inventory_location : option string)
  : M unit :=
  echo running ;;
  echo "Collecting redistributable files...".

(** Any callback of the module with its arguments. *)
Inductive Callback :=
| Command (c : Subcommand)
| Export
| Fetch (location : string)
| Redist (input_dir output : string) (inventory_location : option string).

Definition callback (c : Callback) : M unit :=
  match c with
  | Command c => invoke c
  | Export => export
  | Fetch location => fetch location
  | Redist input_dir output inventory_location =>
      redist input_dir output inventory_location
  end.

End Commands.

(** ** [os.path] on POSIX, for running the commands *)

Module Posix.

Definition is_slash (c : ascii) : bool := Ascii.eqb c "/".

(** [p[:p.rfind('/') + 1]], [None] when [p] has no slash *)
Fixpoint head (p : string) : option string :=
  match p with
  | EmptyString => None
  | String c p' =>
      match head p' with
      | Some h => Some (String c h)
      | None => if is_slash c then Some (String c EmptyString) else None
      end
  end.

(** [s.rstrip('/')] *)
Fixpoint rstrip (s : string) : string :=
  match s with
  | EmptyString => EmptyString
  | String c s' =>
      match rstrip s' with
      | EmptyString => if is_slash c then EmptyString else String c EmptyString
      | r => String c r
      end
  end.

(** [posixpath.dirname] *)
Definition dirname (p : string) : string :=
  match head p with
  | None => EmptyString
  | Some h =>
      match rstrip h with
      | EmptyString => h
      | r => r
      end
  end.

(** [posixpath.join(a, b)] *)
Definition join (a b : string) : string :=
  match b with
  | String "/" _ => b
  | _ => if negb (Py.truthy a) || Py.endswith a "/" then a +:+ b else a +:+ "/" +:+ b
  end.

(** [path.replace('\\', '/')] *)
Fixpoint to_posix (p : string) : string :=
  match p with
  | EmptyString => EmptyString
  | String c p' => String (if Ascii.eqb c "\" then "/"%char else c) (to_posix p')
  end.

End Posix.

(** ** A small installation, for running the commands

  Records are file names; the collaborators are stand-ins that read and
  write the model file system the way their names say. *)

Module Sample.

(** A regular file written in one go. *)
Definition write_file (path : string) (content : list string) (f : FS) : FS :=
  let i := fresh (dom (inodes f)) in
  mkFS (<[path := File i]> (names f)) (<[i := content]> (inodes f)).

Definition sample_collect (location : string) (f : FS)
  : (list Error * list string) * FS :=
  match names f !! location with
  | Some _ =>
      (([mkError INFO "1 ABOUT file read"; mkError ERROR "Field name is required"],
        [location]), f)
  | None => (([mkError CRITICAL "location not found"], []), f)
  end.

Definition sample_generate (mapping : bool) (extract_license : option (string * string))
    (location output : string) (f : FS) : (list Error * list string) * FS :=
  (([mkError WARNING "Field about_resource is missing";
     mkError INFO "Field custom is a custom field"],
    ["lib.ABOUT"; "app.ABOUT"]),
   write_file (Posix.join output "app.ABOUT") ["name: app"]
     (write_file (Posix.join output "lib.ABOUT") ["name: lib"] f)).

#[local] Instance env : Env := {|
  About := string;
  version := "3.0.0";
  severities := severities_table;
  dirname := Posix.dirname;
  join := Posix.join;
  log_disable := 0;
  log_effective_level := WARNING;
  to_posix := Posix.to_posix;
  extract_zip := λ location f, (location +:+ ".d", f);
  collect_inventory := sample_collect;
  to_json := λ abouts output f, (tt, write_file output ("[" :: abouts ++ ["]"]) f);
  to_csv := λ abouts output f, (tt, write_file output ("about_file_path" :: abouts) f);
  generate := sample_generate;
  verify_license_files := λ abouts ltl f, ((∅, [mkError ERROR "No license file"]), f);
  copy_files := λ d output f, (tt, f);
  generate_and_save := λ abouts output mapping template inv f,
    ([mkError INFO "1 component"], write_file output abouts f)
|}.

(** A tree with an inventory, an output directory and an old log. *)
Definition disk : FS :=
  mkFS {[ "/" := Dir; "/src" := Dir; "/out" := Dir;
          "/src/inv.csv" := File 0; "/out/error.log" := File 1;
          "/out/inv.csv" := File 2 ]}
       {[ 0%nat := ["about_file_path"; "lib.ABOUT"];
          1%nat := ["ERROR: an old run"];
          2%nat := ["about_file_path"] ]}.

Definition world : World := initial_world disk.

(** The same tree with a zipped location and the directory it extracts to. *)
Definition zipped_disk : FS :=
  mkFS (<["/src/pkg.ZIP" := File 3]> (<["/src/pkg.ZIP.d" := Dir]> (names disk)))
       (<[3%nat := ["PK"]]> (inodes disk)).

Definition zipped_world : World := initial_world zipped_disk.

End Sample.

(** ** Observations on a run *)

Section Observations.

Context `{Env}.

(** The command printed its banner and [lines], returned, and did nothing
    else: no collaborator was called, no file or log handler was touched. *)
Definition rejected (w : World) (lines : list string) (out : result unit * World)
  : Prop :=
  out.1 = Return tt ∧
  stdout out.2 = stdout w ++ running :: lines ∧
  calls out.2 = calls w ∧
  fs out.2 = fs w ∧
  file_handlers out.2 = file_handlers w.

(** The checks of [inventory] on its arguments, in the order of the code. *)
Definition inventory_checks (overwrite : bool) (format output : string) (w : World)
  : bool :=
  negb (path_exists (fs w) output && negb overwrite) &&
  path_exists (fs w) (dirname output) &&
  bool_decide (format ∈ formats) &&
  (String.eqb format "json" || Py.endswith output ".csv").

(** The check of [gen] on its input file. *)
Definition gen_checks (location : string) : bool :=
  Py.endswith location ".csv" || Py.endswith location ".json".

Definition checks_pass (c : Subcommand) (w : World) : bool :=
  match c with
  | Inventory overwrite format _ output => inventory_checks overwrite format output w
  | Gen _ _ _ location _ => gen_checks location
  | Attrib _ _ _ _ _ => true
  end.

(** The collaborator a subcommand is there to run. *)
Definition is_collaborator_call (c : Subcommand) (k : Call) : Prop :=
  match c, k with
  | Inventory _ _ _ _, CollectInventory _ => True
  | Gen mapping _ extract_license location output, Generate m e l o =>
      m = mapping ∧ e = extract_license ∧ l = location ∧ o = output
  | Attrib _ output template mapping inventory_location,
    GenerateAndSave _ o m t i =>
      o = output ∧ m = mapping ∧ t = template ∧ i = inventory_location
  | _, _ => False
  end.

(** Between [w] and [w'] the collaborator of [c] was called. *)
Definition delegates (c : Subcommand) (w w' : World) : Prop :=
  ∃ new k, calls w' = calls w ++ new ∧ k ∈ new ∧ is_collaborator_call c k.

(** A command that keeps [R] between the world it starts in and the one
    it ends in, whether it returns or raises. *)
Definition preserves {A} (R : relation World) (m : M A) : Prop :=
  ∀ w, R w (m w).2.

(** Nothing assigned the module globals. *)
Definition same_globals (w w' : World) : Prop :=
  no_stdout w' = no_stdout w ∧ verbosity_num w' = verbosity_num w.

(** [inventory] after its checks, up to the return of [collect_inventory]:
    the result of the collaborator and the world it leaves. *)
Definition after_collect (location output : string) (w : World)
  : (list Error * list About) * World :=
  let w0 :=
    set_stdout
      (stdout w ++
       [running;
        "Collecting the inventory from location: " +:+ location +:+
        " and writing output to: " +:+ output]) w in
  let '(location', w1) :=
    if Py.endswith (Py.lower location) ".zip"
    then do_call (ExtractZip location) (extract_zip location) w0
    else (location, w0) in
  do_call (CollectInventory location') (collect_inventory location') w1.

(** The errors [gen] ends with and the records it generated: the errors of
    [generate], then those of [verify_license_files] when a license
    directory is given. *)
Definition gen_report (mapping : bool) (license_text_location : option string)
    (extract_license : option (string * string)) (location output : string)
    (w : World) : list Error * list About :=
  let '((errors, abouts), f1) :=
    generate mapping extract_license location output (fs w) in
  if Py.truthy_opt license_text_location then
    let '((_, lic_file_err), _) :=
      verify_license_files abouts (default EmptyString license_text_location) f1 in
    (errors ++ lic_file_err, abouts)
  else (errors, abouts).

(** The error [inventory] reports when no record was collected. *)
Definition no_abouts : list Error :=
  [mkError ERROR "No ABOUT files is found. Generation halted."].

(** The errors [inventory] hands to [log_errors]. *)
Definition inventory_errors (location output : string) (w : World) : list Error :=
  match (after_collect location output w).1 with
  | (_, []) => no_abouts
  | (errors, _ :: _) => errors
  end.

(** The world once [log_errors] has opened a new [error.log] on inode [i]. *)
Definition with_error_log (log_path : string) (i : nat) (w : World) : World :=
  set_file_handlers (file_handlers w ++ [i])
    (set_fs (mkFS (<[log_path := File i]> (names (fs w)))
                  (<[i := []]> (inodes (fs w)))) w).

(** The summary line of [gen]. *)
Definition summary (lea lee : nat) : string :=
  "Generated " +:+ pretty lea +:+ " ABOUT files with " +:+ pretty lee +:+
  " errors and/or warning".

(** What [log_errors] is meant to report: the errors at or above [level],
    each rendered as [NAME: message]. *)
Definition selected (level : Z) (errors : list Error) : list Error :=
  filter (λ e, level ≤ severity e) errors.

Definition line_of (e : Error) : option string :=
  (λ sever, msg_format sever (message e)) <$> severities !! severity e.

(** The selected errors the file logger is enabled for. *)
Definition logged (level : Z) (errors : list Error) : list Error :=
  filter (λ e, isEnabledFor (severity e) = true) (selected level errors).

Definition known (e : Error) : Prop := is_Some (severities !! severity e).

(** Every message of [msgs], in order, emitted by every handler of [hs]. *)
Definition emit_all (msgs : list string) (hs : list nat) (ino : gmap nat (list string))
  : gmap nat (list string) :=
  foldl (λ ino msg, foldl (append_line msg) ino hs) ino msgs.

(** The world after the loop of [log_errors] has handled [errors]. *)
Definition after_logging (base_dir : option string) (level : Z) (errors : list Error)
    (w : World) : World :=
  mkWorld
    (mkFS (names (fs w))
          (emit_all (if Py.truthy_opt base_dir
                     then omap line_of (logged level errors) else [])
                    (file_handlers w) (inodes (fs w))))
    (stdout w ++ (if no_stdout w then [] else omap line_of (selected level errors)))
    (file_handlers w) (no_stdout w) (verbosity_num w) (calls w).

(** An error [log_errors] can report at [level]: below the level, or with
    its severity in the table. *)
Definition reportable (level : Z) (e : Error) : Prop :=
  level ≤ severity e → known e.

(** Stdout is only appended to. *)
Definition stdout_grows (w w' : World) : Prop :=
  stdout w `prefix_of` stdout w'.

(** A command that runs the same whatever [verbosity_num] holds. *)
Definition ignores_verbosity {A} (m : M A) : Prop :=
  ∀ v w, m (set_verbosity_num v w) = ((m w).1, set_verbosity_num v (m w).2).

(** Two runs that end alike in all but the module globals. *)
Definition same_run (out1 out2 : result unit * World) : Prop :=
  out1.1 = out2.1 ∧
  stdout out1.2 = stdout out2.2 ∧
  fs out1.2 = fs out2.2 ∧
  file_handlers out1.2 = file_handlers out2.2 ∧
  calls out1.2 = calls out2.2.

(** Two worlds that differ in stdout and in [no_stdout] at most. *)
Definition same_but_stdout (w w' : World) : Prop :=
  fs w = fs w' ∧
  file_handlers w = file_handlers w' ∧
  verbosity_num w = verbosity_num w' ∧
  calls w = calls w'.

(** A command for which stdout and [no_stdout] decide nothing but stdout. *)
Definition quiet_blind {A} (m : M A) : Prop :=
  ∀ w w', same_but_stdout w w' →
    (m w).1 = (m w').1 ∧ same_but_stdout (m w).2 (m w').2.

(** [attrib] up to the return of [generate_and_save]: the errors it
    returned and the world it leaves. *)
Definition after_generate_and_save (location output : string) (template : option string)
    (mapping : bool) (inventory_location : option string) (w : World)
  : list Error * World :=
  let w0 := set_stdout (stdout w ++ [running; "Generating attribution..."]) w in
  let '(location', w1) :=
    if Py.endswith (Py.lower location) ".zip"
    then do_call (ExtractZip location) (extract_zip location) w0
    else (location, w0) in
  let '((_, abouts), w2) :=
    do_call (CollectInventory location') (collect_inventory location') w1 in
  do_call (GenerateAndSave abouts output mapping template inventory_location)
          (generate_and_save abouts output mapping template inventory_location) w2.

End Observations.

Section Properties.

Context `{Env}.

Ltac run := unfold bind, ret, echo, get; simpl.

(** *** The loop of [log_errors] *)

Lemma after_logging_nil (base_dir : option string) (level : Z) (w : World) :
  after_logging base_dir level [] w = w.
Proof.
  unfold after_logging, selected, logged. simpl.
  destruct w as [[n i] out hs q v c]; simpl.
  f_equal.
  - by destruct (Py.truthy_opt base_dir).
  - destruct q; by rewrite app_nil_r.
Qed.

Lemma after_logging_skip (base_dir : option string) (level : Z) (e : Error)
    (errors : list Error) (w : World) :
  ¬ level ≤ severity e →
  after_logging base_dir level (e :: errors) w = after_logging base_dir level errors w.
Proof.
  intros Hlt. unfold after_logging, logged, selected.
  by rewrite (filter_cons_False (λ e, level ≤ severity e) e errors Hlt).
Qed.

Lemma log_error_skip (base_dir : option string) (level : Z) (e : Error) (w : World) :
  ¬ level ≤ severity e → log_error base_dir level e w = (Return tt, w).
Proof.
  intros Hlt. unfold log_error. destruct e as [sev msg]; simpl in *.
  destruct (Z.leb_spec level sev); [lia | done].
Qed.

Lemma log_error_unknown (base_dir : option string) (level : Z) (e : Error) (w : World) :
  level ≤ severity e → severities !! severity e = None →
  log_error base_dir level e w = (Raise (KeyError (severity e)), w).
Proof.
  intros Hle Hnone. unfold log_error. destruct e as [sev msg]; simpl in *.
  destruct (Z.leb_spec level sev); [| lia].
  unfold bind, severities_get. by rewrite Hnone.
Qed.

Lemma selected_cons_True (level : Z) (e : Error) (errors : list Error) :
  level ≤ severity e → selected level (e :: errors) = e :: selected level errors.
Proof. intros Hle. unfold selected. by rewrite filter_cons_True. Qed.

Lemma logged_cons_True (level : Z) (e : Error) (errors : list Error) :
  level ≤ severity e →
  logged level (e :: errors) =
    if isEnabledFor (severity e) then e :: logged level errors else logged level errors.
Proof.
  intros Hle. unfold logged. rewrite selected_cons_True by done.
  destruct (isEnabledFor (severity e)) eqn:Hen.
  - by rewrite filter_cons_True.
  - rewrite filter_cons_False; [done | congruence].
Qed.

Lemma log_error_known (base_dir : option string) (level : Z) (e : Error)
    (sever : string) (w : World) :
  level ≤ severity e → severities !! severity e = Some sever →
  ∃ w1, log_error base_dir level e w = (Return tt, w1) ∧
    ∀ errors, after_logging base_dir level errors w1 =
              after_logging base_dir level (e :: errors) w.
Proof.
  intros Hle Hsome.
  assert (Hline : line_of e = Some (msg_format sever (message e))).
  { unfold line_of. by rewrite Hsome. }
  assert (Hafter : ∀ errors,
    after_logging base_dir level (e :: errors) w =
    mkWorld
      (mkFS (names (fs w))
         (emit_all (if Py.truthy_opt base_dir
                    then omap line_of (logged level errors) else [])
            (file_handlers w)
            (if Py.truthy_opt base_dir && isEnabledFor (severity e)
             then foldl (append_line (msg_format sever (message e)))
                        (inodes (fs w)) (file_handlers w)
             else inodes (fs w))))
      (stdout w ++ (if no_stdout w then []
                    else msg_format sever (message e)
                         :: omap line_of (selected level errors)))
      (file_handlers w) (no_stdout w) (verbosity_num w) (calls w)).
  { intros errors. unfold after_logging.
    rewrite selected_cons_True, logged_cons_True by done.
    destruct (Py.truthy_opt base_dir), (isEnabledFor (severity e)); simpl;
      rewrite ?Hline; done. }
  unfold log_error. destruct e as [sev msg]; simpl in *.
  destruct (Z.leb_spec level sev); [| lia].
  unfold bind, severities_get, get, ret, echo, file_logger_log. rewrite Hsome.
  destruct w as [[n i] out hs q v c]; simpl in *.
  destruct q, (Py.truthy_opt base_dir) eqn:Htr, (isEnabledFor sev) eqn:Hen; simpl;
    eexists; (split; [reflexivity |]); intros errors; rewrite Hafter;
    unfold after_logging; simpl; rewrite Htr; simpl;
    rewrite <- ?app_assoc; done.
Qed.

Lemma log_loop_spec (base_dir : option string) (level : Z) (errors : list Error)
    (w : World) :
  ∃ done,
    done `prefix_of` errors ∧
    (for_each (log_error base_dir level) errors w).2 =
      after_logging base_dir level done w ∧
    ((for_each (log_error base_dir level) errors w).1 = Return tt → done = errors) ∧
    (Forall known errors →
     (for_each (log_error base_dir level) errors w).1 = Return tt).
Proof.
  revert w. induction errors as [| e errors IH]; intros w; simpl.
  { exists []. by rewrite after_logging_nil. }
  unfold bind.
  destruct (decide (level ≤ severity e)) as [Hle | Hlt].
  - destruct (severities !! severity e) as [sever |] eqn:Hsev.
    + destruct (log_error_known base_dir level e sever w Hle Hsev) as (w1 & -> & Hw1).
      destruct (IH w1) as (done & Hpre & Hw & Hret & Hknown).
      exists (e :: done). rewrite Hw, Hw1. split_and!.
      * by apply prefix_cons.
      * done.
      * intros Hr. by rewrite (Hret Hr).
      * intros Hall. apply Hknown. by eapply Forall_cons_1.
    + rewrite (log_error_unknown base_dir level e w Hle Hsev). simpl.
      exists []. rewrite after_logging_nil. split_and!; [apply prefix_nil | done | done |].
      intros Hall. apply Forall_cons_1 in Hall as [[? Hk] _]. congruence.
  - rewrite (log_error_skip base_dir level e w Hlt).
    destruct (IH w) as (done & Hpre & Hw & Hret & Hknown).
    exists (e :: done). rewrite Hw, after_logging_skip by done. split_and!.
    + by apply prefix_cons.
    + done.
    + intros Hr. by rewrite (Hret Hr).
    + intros Hall. apply Hknown. by eapply Forall_cons_1.
Qed.

(** *** Handlers and log files *)

Lemma emit_other (msg : string) (hs : list nat) (i : nat)
    (ino : gmap nat (list string)) :
  i ∉ hs → foldl (append_line msg) ino hs !! i = ino !! i.
Proof.
  revert ino. induction hs as [| h hs IH]; intros ino Hnotin; simpl; [done |].
  apply not_elem_of_cons in Hnotin as [Hne Hnotin].
  rewrite IH by done. unfold append_line. by rewrite lookup_alter_ne.
Qed.

Lemma emit_all_lookup (msgs : list string) (hs : list nat) (i : nat)
    (ino : gmap nat (list string)) (content : list string) :
  i ∉ hs → ino !! i = Some content →
  emit_all msgs (hs ++ [i]) ino !! i = Some (content ++ msgs).
Proof.
  intros Hnotin. unfold emit_all.
  revert ino content. induction msgs as [| msg msgs IH]; intros ino content Hi; simpl.
  { by rewrite app_nil_r. }
  rewrite (IH _ (content ++ [msg])).
  - by rewrite <- app_assoc.
  - rewrite foldl_app. simpl. unfold append_line at 1.
    rewrite lookup_alter_eq, emit_other, Hi by done. done.
Qed.

(** *** The creation of [error.log] *)

Lemma create_error_log_frame (base_dir : option string) (w : World) :
  stdout (create_error_log base_dir w).2 = stdout w ∧
  no_stdout (create_error_log base_dir w).2 = no_stdout w ∧
  verbosity_num (create_error_log base_dir w).2 = verbosity_num w ∧
  calls (create_error_log base_dir w).2 = calls w.
Proof.
  unfold create_error_log, bind, get, ret, os_remove, open_append, addHandler.
  destruct base_dir as [d |]; [| done].
  destruct (Py.truthy d); [| done]. simpl.
  repeat (case_match; simplify_eq/=); done.
Qed.

Lemma create_error_log_spec (d : string) (w : World) :
  let log_path := join (to_posix d) LOG_FILENAME in
  Py.truthy d = true →
  names (fs w) !! dirname log_path = Some Dir →
  names (fs w) !! log_path ≠ Some Dir →
  ∃ i : nat,
    (i ∉ file_handlers w) ∧
    inodes (fs w) !! i = None ∧
    create_error_log (Some d) w = (Return tt, with_error_log log_path i w).
Proof.
  intros log_path Htruthy Hdir Hnodir.
  assert (Hne : dirname log_path ≠ log_path) by congruence.
  set (i := fresh (dom (inodes (fs w)) ∪ list_to_set (file_handlers w))).
  assert (Hfresh : i ∉ dom (inodes (fs w)) ∪ list_to_set (file_handlers w))
    by apply is_fresh.
  exists i. split_and!.
  - intros Hin. apply Hfresh, elem_of_union_r. by apply elem_of_list_to_set.
  - apply not_elem_of_dom. intros Hin. by apply Hfresh, elem_of_union_l.
  - unfold create_error_log, with_error_log. rewrite Htruthy. fold log_path.
    unfold bind, get, ret, os_remove, open_append, addHandler, path_exists. simpl.
    destruct (names (fs w) !! log_path) as [[j |] |] eqn:Hlook; [| done |].
    + rewrite bool_decide_eq_true_2 by eauto. simpl.
      rewrite Hlook. simpl.
      rewrite lookup_delete_eq, lookup_delete_ne, Hdir by done. simpl.
      fold i. by rewrite insert_delete_eq.
    + rewrite bool_decide_eq_false_2 by (by intros [? ?]). simpl.
      rewrite Hlook, Hdir. simpl. by fold i.
Qed.

(** *** What [log_errors] leaves alone *)

Lemma log_errors_frame (errors : list Error) (base_dir : option string) (level : Z)
    (w : World) :
  no_stdout (log_errors errors base_dir level w).2 = no_stdout w ∧
  verbosity_num (log_errors errors base_dir level w).2 = verbosity_num w ∧
  calls (log_errors errors base_dir level w).2 = calls w ∧
  (no_stdout w = true → stdout (log_errors errors base_dir level w).2 = stdout w).
Proof.
  destruct (create_error_log_frame base_dir w) as (Hout & Hq & Hv & Hc).
  unfold log_errors, bind.
  destruct (create_error_log base_dir w) as [[[] | e] w1]; simpl in *; [| done].
  destruct (log_loop_spec base_dir level errors w1) as (done & _ & -> & _).
  unfold after_logging; simpl. split_and!; try done.
  intros Hquiet. rewrite Hq, Hquiet, app_nil_r. done.
Qed.

(** Once [error.log] is open, [log_errors] prints the errors at or above
    its [level] argument, unless [no_stdout] is set. *)
Lemma log_errors_prints (errors : list Error) (base_dir : option string) (level : Z)
    (w : World) :
  (create_error_log base_dir w).1 = Return tt →
  Forall known errors →
  stdout (log_errors errors base_dir level w).2 =
    stdout w ++ (if no_stdout w then [] else omap line_of (selected level errors)).
Proof.
  intros Hcreate Hknown.
  destruct (create_error_log_frame base_dir w) as (Hout & Hq & _).
  unfold log_errors, bind.
  destruct (create_error_log base_dir w) as [[[] | e] w1]; simpl in *; [| done].
  destruct (log_loop_spec base_dir level errors w1) as (done & _ & -> & Hret & Hall).
  rewrite (Hret (Hall Hknown)). unfold after_logging; simpl.
  by rewrite Hout, Hq.
Qed.

(** [log_errors] with a truthy [base_dir], on a file system where the log
    can be created: a new [error.log] is opened, then the errors are handled
    until one raises. *)
Lemma log_errors_spec (errors : list Error) (base_dir : string) (level : Z) (w : World) :
  let log_path := join (to_posix base_dir) LOG_FILENAME in
  Py.truthy base_dir = true →
  names (fs w) !! dirname log_path = Some Dir →
  names (fs w) !! log_path ≠ Some Dir →
  ∃ (i : nat) (done : list Error),
    (i ∉ file_handlers w) ∧
    done `prefix_of` errors ∧
    (Forall known errors →
     done = errors ∧ (log_errors errors (Some base_dir) level w).1 = Return tt) ∧
    (log_errors errors (Some base_dir) level w).2 =
      after_logging (Some base_dir) level done (with_error_log log_path i w).
Proof.
  intros log_path Htruthy Hdir Hnodir.
  destruct (create_error_log_spec base_dir w Htruthy Hdir Hnodir)
    as (i & Hhs & Hino & Hcreate).
  fold log_path in Hcreate.
  unfold log_errors, bind. rewrite Hcreate.
  destruct (log_loop_spec (Some base_dir) level errors (with_error_log log_path i w))
    as (done & Hpre & Hw & Hret & Hknown).
  exists i, done. split_and!; [done | done | | done].
  intros Hall. specialize (Hknown Hall). by rewrite (Hret Hknown).
Qed.

(** The new log holds what the handled errors logged, and nothing else. *)
Lemma read_error_log (base_dir : string) (level : Z) (done : list Error)
    (log_path : string) (i : nat) (w : World) :
  Py.truthy base_dir = true →
  i ∉ file_handlers w →
  read_file (fs (after_logging (Some base_dir) level done (with_error_log log_path i w)))
    log_path = Some (omap line_of (logged level done)).
Proof.
  intros Htruthy Hhs. unfold read_file, after_logging, with_error_log. simpl.
  rewrite Htruthy, lookup_insert_eq.
  by rewrite (emit_all_lookup _ _ _ _ []) by (by rewrite ?lookup_insert_eq).
Qed.

(** C3: [log_errors] with a truthy [base_dir] leaves an [error.log] in that
    directory that holds the messages of this call only: a log that was
    there before is removed first, so none of its lines survive. *)
Theorem log_errors_replaces_error_log (errors : list Error) (base_dir : string)
    (level : Z) (w : World) :
  let log_path := join (to_posix base_dir) LOG_FILENAME in
  Py.truthy base_dir = true →
  names (fs w) !! dirname log_path = Some Dir →
  names (fs w) !! log_path ≠ Some Dir →
  ∃ done : list Error,
    done `prefix_of` errors ∧
    (Forall known errors →
     done = errors ∧ (log_errors errors (Some base_dir) level w).1 = Return tt) ∧
    read_file (fs (log_errors errors (Some base_dir) level w).2) log_path =
      Some (omap line_of (logged level done)).
Proof.
  intros log_path Htruthy Hdir Hnodir.
  destruct (log_errors_spec errors base_dir level w Htruthy Hdir Hnodir)
    as (i & done & Hhs & Hpre & Hknown & Hw).
  fold log_path in Hw.
  exists done. split_and!; [done | done |].
  rewrite Hw. by apply read_error_log.
Qed.

(** *** The module globals *)

#[local] Instance same_globals_refl : Reflexive same_globals.
Proof. by intros w. Qed.

#[local] Instance same_globals_trans : Transitive same_globals.
Proof. intros w1 w2 w3 [? ?] [? ?]. split; congruence. Qed.

Lemma preserves_ret {A} (R : relation World) `{!Reflexive R} (a : A) :
  preserves R (ret a).
Proof. intros w. done. Qed.

Lemma preserves_bind {A B} (R : relation World) `{!Transitive R}
    (m : M A) (k : A → M B) :
  preserves R m → (∀ a, preserves R (k a)) → preserves R (bind m k).
Proof.
  intros Hm Hk w. unfold bind. specialize (Hm w).
  destruct (m w) as [[a | e] w1]; simpl in *; [| done].
  etrans; [done | apply Hk].
Qed.

Lemma echo_globals (line : string) : preserves same_globals (echo line).
Proof. by intros w. Qed.

Lemma get_globals {A} (proj : World → A) : preserves same_globals (get proj).
Proof. by intros w. Qed.

Lemma call_globals {X} (c : Call) (f : FS → X * FS) : preserves same_globals (call c f).
Proof. intros w. unfold call, do_call. by destruct (f (fs w)). Qed.

Lemma unzip_location_globals (location : string) :
  preserves same_globals (unzip_location location).
Proof.
  unfold unzip_location. destruct (Py.endswith _ _);
    [apply call_globals | by apply preserves_ret].
Qed.

Lemma log_errors_globals (errors : list Error) (base_dir : option string) (level : Z) :
  preserves same_globals (log_errors errors base_dir level).
Proof.
  intros w. destruct (log_errors_frame errors base_dir level w) as (? & ? & _). done.
Qed.

Create HintDb globals.
Hint Resolve echo_globals get_globals call_globals unzip_location_globals
  log_errors_globals : globals.

Ltac globals :=
  repeat first
    [ solve [auto with globals]
    | apply preserves_ret; apply _
    | apply preserves_bind; [apply _ | | intros ?]
    | match goal with
      | |- preserves _ (if ?b then _ else _) => destruct b
      | |- preserves _ (match ?x with _ => _ end) => destruct x
      end ].

Lemma invoke_globals (c : Subcommand) : preserves same_globals (invoke c).
Proof.
  destruct c; simpl.
  - unfold inventory. cbv zeta. globals.
  - unfold gen. cbv zeta. globals.
  - unfold attrib. globals.
Qed.

(** C8: the command group stores [--quiet] and [--verbose] in [no_stdout] and
    [verbosity_num] before the subcommand runs, no subcommand assigns them
    again, and with [no_stdout] set [log_errors] prints nothing, whatever
    the errors and the threshold. *)
Theorem cli_sets_flags_once (verbose : Z) (quiet : bool) (c : Subcommand) (w : World) :
  cli verbose quiet w = (Return tt, set_verbosity_num verbose (set_no_stdout quiet w)) ∧
  about verbose quiet c w = invoke c (set_verbosity_num verbose (set_no_stdout quiet w)) ∧
  no_stdout (about verbose quiet c w).2 = quiet ∧
  verbosity_num (about verbose quiet c w).2 = verbose ∧
  (∀ (errors : list Error) (base_dir : option string) (level : Z),
     stdout (log_errors errors base_dir level (set_no_stdout true w)).2 = stdout w).
Proof.
  assert (Habout :
    about verbose quiet c w = invoke c (set_verbosity_num verbose (set_no_stdout quiet w)))
    by done.
  split_and!; [done | done | | |].
  - rewrite Habout. by destruct (invoke_globals c (set_verbosity_num verbose (set_no_stdout quiet w))) as [-> _].
  - rewrite Habout. by destruct (invoke_globals c (set_verbosity_num verbose (set_no_stdout quiet w))) as [_ ->].
  - intros errors base_dir level.
    by destruct (log_errors_frame errors base_dir level (set_no_stdout true w))
      as (_ & _ & _ & ->).
Qed.

(** *** [gen] *)

Lemma append_all_app (errors l : list Error) : append_all errors l = errors ++ l.
Proof.
  unfold append_all. revert errors.
  induction l as [| e l IH]; intros errors; simpl.
  - by rewrite app_nil_r.
  - by rewrite IH, <- app_assoc.
Qed.

Lemma count_lee_from (n : nat) (errors : list Error) :
  foldl (λ lee e, if 20 <? severity e then (lee + 1)%nat else lee) n errors =
  (n + length (filter (λ e, (20 < severity e)%Z) errors))%nat.
Proof.
  revert n. induction errors as [| e errors IH]; intros n; simpl; [lia |].
  rewrite IH. destruct (Z.ltb_spec 20 (severity e)).
  - rewrite filter_cons_True by done. simpl. lia.
  - rewrite filter_cons_False by lia. done.
Qed.

Lemma count_lee_filter (errors : list Error) :
  count_lee errors = length (filter (λ e, 20 < severity e) errors).
Proof. unfold count_lee. by rewrite count_lee_from. Qed.

Lemma gen_rejected (mapping : bool) (license_text_location : option string)
    (extract_license : option (string * string)) (location output : string)
    (w : World) :
  gen_checks location = false →
  rejected w
    ["ERROR: Input file. Only .csv and .json files are supported."; EmptyString]
    (gen mapping license_text_location extract_license location output w).
Proof.
  unfold gen_checks. intros [Hcsv Hjson]%orb_false_iff.
  unfold gen, rejected. run. rewrite Hcsv, Hjson. simpl.
  rewrite <- !app_assoc. done.
Qed.

(** C5: [gen] on a location that ends with neither .csv nor .json prints
    the error and returns; [gen.generate] is not called and no file is
    written. *)
Theorem gen_rejects_extension (mapping : bool) (license_text_location : option string)
    (extract_license : option (string * string)) (location output : string)
    (w : World) :
  Py.endswith location ".csv" = false →
  Py.endswith location ".json" = false →
  rejected w
    ["ERROR: Input file. Only .csv and .json files are supported."; EmptyString]
    (gen mapping license_text_location extract_license location output w).
Proof.
  intros Hcsv Hjson. apply gen_rejected. unfold gen_checks. by rewrite Hcsv, Hjson.
Qed.

Lemma gen_accepted (mapping : bool) (license_text_location : option string)
    (extract_license : option (string * string)) (location output : string)
    (w : World) :
  gen_checks location = true →
  ∃ w1,
    gen mapping license_text_location extract_license location output w =
      log_errors
        (gen_report mapping license_text_location extract_license location output w).1
        (Some output) NOTSET w1 ∧
    stdout w1 =
      stdout w ++
      [running; "Generating ABOUT files...";
       summary
         (length (gen_report mapping license_text_location extract_license
                    location output w).2)
         (length (filter (λ e, 20 < severity e)
            (gen_report mapping license_text_location extract_license
               location output w).1))] ∧
    (∃ rest, calls w1 =
       calls w ++ Generate mapping extract_license location output :: rest).
Proof.
  intros Hchk. unfold gen_checks in Hchk.
  assert (Hif : negb (Py.endswith location ".csv") &&
                negb (Py.endswith location ".json") = false).
  { destruct (Py.endswith location ".csv"), (Py.endswith location ".json"); done. }
  unfold gen, gen_report. run. rewrite Hif. simpl.
  unfold call, do_call. simpl.
  destruct (generate mapping extract_license location output (fs w))
    as [[errors abouts] f1]. simpl.
  destruct license_text_location as [ltl |]; simpl.
  2: { eexists. split; [reflexivity |]. simpl.
       rewrite <- !app_assoc, count_lee_filter. split; [done | by eexists]. }
  destruct (Py.truthy ltl); simpl.
  2: { eexists. split; [reflexivity |]. simpl.
       rewrite <- !app_assoc, count_lee_filter. split; [done | by eexists]. }
  destruct (verify_license_files abouts ltl f1) as [[lic_loc_dict lic_file_err] f2].
  simpl.
  destruct (bool_decide (lic_loc_dict = ∅)); simpl;
    try destruct (copy_files lic_loc_dict output f2) as [[] f3]; simpl;
    destruct lic_file_err as [| file_err lic_file_err]; simpl;
    rewrite ?app_nil_r, ?append_all_app, <- ?(app_assoc errors); simpl;
    (eexists; split; [reflexivity |]); simpl;
    rewrite <- !app_assoc, count_lee_filter; simpl;
    (split; [done | by eexists]).
Qed.

(** C9: the summary line of [gen] reports the number of generated records
    and the number of errors of the final list whose severity is above 20,
    which on the five levels are the CRITICAL, ERROR and WARNING ones. *)
Theorem gen_summary_counts (mapping : bool) (license_text_location : option string)
    (extract_license : option (string * string)) (location output : string)
    (w : World) :
  gen_checks location = true →
  let report :=
    gen_report mapping license_text_location extract_license location output w in
  (∃ w1,
     gen mapping license_text_location extract_license location output w =
       log_errors report.1 (Some output) NOTSET w1 ∧
     stdout w1 =
       stdout w ++
       [running; "Generating ABOUT files...";
        summary (length report.2)
                (length (filter (λ e, 20 < severity e) report.1))]) ∧
  (∀ e : Error,
     severity e ∈ [CRITICAL; ERROR; WARNING; INFO; NOTSET] →
     20 < severity e ↔ severity e ∈ [CRITICAL; ERROR; WARNING]).
Proof.
  intros Hchk report. split.
  - destruct (gen_accepted mapping license_text_location extract_license
                location output w Hchk) as (w1 & Hrun & Hout & _).
    by exists w1.
  - intros e. unfold CRITICAL, ERROR, WARNING, INFO, NOTSET.
    rewrite !elem_of_cons, !elem_of_nil. lia.
Qed.

(** *** [inventory] and [attrib] *)

Lemma do_call_verbosity {X} (c : Call) (f : FS → X * FS) (w : World) :
  verbosity_num (do_call c f w).2 = verbosity_num w.
Proof. unfold do_call. by destruct (f (fs w)). Qed.

Lemma do_call_calls {X} (c : Call) (f : FS → X * FS) (w : World) :
  calls (do_call c f w).2 = calls w ++ [c].
Proof. unfold do_call. by destruct (f (fs w)). Qed.

(** Names the result of a collaborator call of the goal and records what
    the call did to the verbosity and to the trace. *)
Ltac name_call x w' :=
  match goal with
  | |- context [do_call ?c ?f ?w] =>
      let Hv := fresh "Hv" in
      let Hc := fresh "Hc" in
      pose proof (do_call_verbosity c f w) as Hv;
      pose proof (do_call_calls c f w) as Hc;
      destruct (do_call c f w) as [x w']; simpl in Hv, Hc
  end.

Ltac same_verbosity :=
  repeat match goal with
         | Hv : verbosity_num _ = _ |- _ => rewrite Hv; clear Hv
         end.

Lemma inventory_accepted (overwrite : bool) (format location output : string)
    (w : World) :
  inventory_checks overwrite format output w = true →
  inventory overwrite format location output w =
    match after_collect location output w with
    | ((errors, []), w2) =>
        log_errors no_abouts (Some (dirname output)) (verbosity_num w) w2
    | ((errors, (_ :: _) as abouts), w2) =>
        log_errors errors (Some (dirname output)) (verbosity_num w)
          (if String.eqb format "json"
           then do_call (ToJson abouts output) (to_json abouts output) w2
           else do_call (ToCsv abouts output) (to_csv abouts output) w2).2
    end.
Proof.
  unfold inventory_checks. rewrite !andb_true_iff, negb_true_iff.
  intros [[[Hover Hdir] Hfmt] Hcsv].
  assert (Hcollect : ∀ (reject collect : M unit),
    (if negb (String.eqb format "json")
     then if negb (Py.endswith output ".csv") then reject else collect
     else collect) = collect).
  { intros reject collect.
    destruct (String.eqb format "json"), (Py.endswith output ".csv"); done. }
  unfold inventory. cbv zeta. rewrite Hcollect.
  run. rewrite Hover. simpl. rewrite Hdir. simpl. rewrite Hfmt. simpl.
  unfold after_collect, unzip_location, call, ret, set_stdout. simpl.
  rewrite <- !app_assoc. simpl.
  destruct (Py.endswith (Py.lower location) ".zip"); simpl.
  - name_call location' w1. name_call r w2. destruct r as [errors abouts].
    destruct abouts as [| about abouts]; simpl; [by same_verbosity |].
    destruct (String.eqb format "json"); name_call u w3; simpl; by same_verbosity.
  - name_call r w2. destruct r as [errors abouts].
    destruct abouts as [| about abouts]; simpl; [by same_verbosity |].
    destruct (String.eqb format "json"); name_call u w3; simpl; by same_verbosity.
Qed.

(** C2: [inventory] on an existing output without [--overwrite] prints the
    error and returns; [collect_inventory] is not called, and neither the
    output file nor [error.log] is written. *)
Theorem inventory_refuses_overwrite (format location output : string) (w : World) :
  path_exists (fs w) output = true →
  rejected w
    ["ERROR: <output> file already exists.";
     "Select a different file name or use the --overwrite option after the `inventory`.";
     EmptyString]
    (inventory false format location output w).
Proof.
  intros Hex. unfold inventory, rejected. run. rewrite Hex. simpl.
  rewrite <- !app_assoc. done.
Qed.

Lemma inventory_rejected (overwrite : bool) (format location output : string)
    (w : World) :
  inventory_checks overwrite format output w = false →
  ∃ msg rest,
    rejected w (("ERROR: " +:+ msg) :: rest)
      (inventory overwrite format location output w).
Proof.
  unfold inventory_checks. intros Hchk. unfold inventory, rejected. run.
  destruct (path_exists (fs w) output && negb overwrite); simpl in *.
  { exists "<output> file already exists.",
      ["Select a different file name or use the --overwrite option after the `inventory`.";
       EmptyString].
    simpl. rewrite <- !app_assoc. done. }
  destruct (path_exists (fs w) (dirname output)); simpl in *.
  2: { exists "Path to the <output> does not exists. Please check and correct the <output>.",
         [EmptyString].
       simpl. rewrite <- !app_assoc. done. }
  destruct (bool_decide (format ∈ formats)); simpl in *.
  2: { exists ("Output format: " +:+ format +:+ " is not supported."), [EmptyString].
       simpl. rewrite <- !app_assoc. done. }
  destruct (String.eqb format "json"); simpl in *; [done |].
  rewrite Hchk. simpl.
  exists ("<output> must be a CSV file ending with " +:+ dquote +:+ ".csv" +:+ dquote +:+ "."),
    [EmptyString].
  simpl. rewrite <- !app_assoc. done.
Qed.

(** C4: [inventory] with a format other than csv and json, or with a format
    other than json and an output not ending with .csv, prints an error and
    returns without processing. *)
Theorem inventory_rejects_format (overwrite : bool) (format location output : string)
    (w : World) :
  format ∉ formats ∨ (format ≠ "json" ∧ Py.endswith output ".csv" = false) →
  ∃ msg rest,
    rejected w (("ERROR: " +:+ msg) :: rest)
      (inventory overwrite format location output w).
Proof.
  intros Hbad. apply inventory_rejected. unfold inventory_checks.
  destruct Hbad as [Hfmt | [Hjson Hcsv]].
  - rewrite (bool_decide_eq_false_2 _ Hfmt). by rewrite andb_false_r.
  - rewrite Hcsv. destruct (String.eqb_spec format "json"); [done |].
    by rewrite andb_false_r.
Qed.

Lemma after_collect_calls (location output : string) (w : World) :
  calls (after_collect location output w).2 =
    calls w ++
    (if Py.endswith (Py.lower location) ".zip"
     then [ExtractZip location; CollectInventory (extract_zip location (fs w)).1]
     else [CollectInventory location]).
Proof.
  unfold after_collect, do_call. simpl.
  destruct (Py.endswith (Py.lower location) ".zip"); simpl.
  - destruct (extract_zip location (fs w)) as [extracted f1]. simpl.
    destruct (collect_inventory extracted f1) as [r f2]. simpl.
    by rewrite <- app_assoc.
  - by destruct (collect_inventory location (fs w)) as [r f2].
Qed.

Lemma after_collect_zip (location output : string) (w : World) :
  Py.endswith (Py.lower location) ".zip" = true →
  (after_collect location output w).1 =
    (collect_inventory (extract_zip location (fs w)).1
                       (extract_zip location (fs w)).2).1.
Proof.
  intros Hzip. unfold after_collect, do_call. simpl. rewrite Hzip.
  destruct (extract_zip location (fs w)) as [extracted f1]. simpl.
  by destruct (collect_inventory extracted f1) as [r f2].
Qed.

(** The trace of an [inventory] that passed its checks. *)
Lemma inventory_calls (overwrite : bool) (format location output : string)
    (w : World) :
  inventory_checks overwrite format output w = true →
  calls (inventory overwrite format location output w).2 =
    calls (after_collect location output w).2 ++
    match (after_collect location output w).1.2 with
    | [] => []
    | (_ :: _) as abouts =>
        if String.eqb format "json"
        then [ToJson abouts output] else [ToCsv abouts output]
    end.
Proof.
  intros Hchk. rewrite inventory_accepted by done.
  destruct (after_collect location output w) as [[errors abouts] w2]. simpl.
  destruct abouts as [| about abouts].
  - destruct (log_errors_frame no_abouts (Some (dirname output)) (verbosity_num w) w2)
      as (_ & _ & -> & _).
    by rewrite app_nil_r.
  - match goal with
    | |- calls (log_errors ?e ?b ?l ?w').2 = _ =>
        destruct (log_errors_frame e b l w') as (_ & _ & -> & _)
    end.
    destruct (String.eqb format "json"); apply do_call_calls.
Qed.

(** The trace of [attrib]. *)
Lemma attrib_calls (location output : string) (template : option string)
    (mapping : bool) (inventory_location : option string) (w : World) :
  calls (attrib location output template mapping inventory_location w).2 =
    calls w ++
    (if Py.endswith (Py.lower location) ".zip"
     then
       [ExtractZip location;
        CollectInventory (extract_zip location (fs w)).1;
        GenerateAndSave
          (collect_inventory (extract_zip location (fs w)).1
                             (extract_zip location (fs w)).2).1.2
          output mapping template inventory_location]
     else
       [CollectInventory location;
        GenerateAndSave (collect_inventory location (fs w)).1.2
          output mapping template inventory_location]).
Proof.
  unfold attrib. run. unfold unzip_location, call, do_call, ret. simpl.
  destruct (Py.endswith (Py.lower location) ".zip"); simpl.
  - destruct (extract_zip location (fs w)) as [extracted f1]. simpl.
    destruct (collect_inventory extracted f1) as [[errors abouts] f2]. simpl.
    destruct (generate_and_save abouts output mapping template inventory_location f2)
      as [no_match_errors f3]. simpl.
    match goal with
    | |- context [log_errors ?e ?b ?l ?w'] =>
        destruct (log_errors_frame e b l w') as (_ & _ & Hc & _);
        destruct (log_errors e b l w') as [[[] | ex] w4]
    end; simpl in *; rewrite Hc, <- !app_assoc; done.
  - destruct (collect_inventory location (fs w)) as [[errors abouts] f2]. simpl.
    destruct (generate_and_save abouts output mapping template inventory_location f2)
      as [no_match_errors f3]. simpl.
    match goal with
    | |- context [log_errors ?e ?b ?l ?w'] =>
        destruct (log_errors_frame e b l w') as (_ & _ & Hc & _);
        destruct (log_errors e b l w') as [[[] | ex] w4]
    end; simpl in *; rewrite Hc, <- !app_assoc; done.
Qed.

(** The lines of the log come from selected errors, in their order, and
    are all of them when the file logger is enabled for each. *)
Lemma logged_lines_sublist (level : Z) (errors : list Error) :
  omap line_of (logged level errors) `sublist_of` omap line_of (selected level errors).
Proof.
  unfold logged. generalize (selected level errors) as l.
  induction l as [| e l IH]; [done |].
  destruct (decide (isEnabledFor (severity e) = true)) as [Hen | Hen].
  - rewrite filter_cons_True by done. simpl.
    destruct (line_of e); [by apply sublist_skip | done].
  - rewrite filter_cons_False by done. simpl.
    destruct (line_of e); [by apply sublist_cons | done].
Qed.

Lemma logged_all (level : Z) (errors : list Error) :
  Forall (λ e, isEnabledFor (severity e) = true) (selected level errors) →
  logged level errors = selected level errors.
Proof.
  unfold logged. generalize (selected level errors) as l.
  induction l as [| e l IH]; intros Hall; [done |].
  apply Forall_cons_1 in Hall as [Hen Hall].
  rewrite filter_cons_True by done. by rewrite IH.
Qed.

(** C1, as the code has it: [log_errors] prints the errors at or above its
    [level] argument unless [no_stdout] is set; an error below [level] is
    neither printed nor logged, and the log holds the errors at or above
    [level] whenever the file logger is enabled for their severities.
    [inventory] passes [verbosity_num] as the level. *)
Theorem log_errors_reports (errors : list Error) (base_dir : string)
    (level : Z) (w : World) :
  let log_path := join (to_posix base_dir) LOG_FILENAME in
  Py.truthy base_dir = true →
  names (fs w) !! dirname log_path = Some Dir →
  names (fs w) !! log_path ≠ Some Dir →
  Forall known errors →
  (log_errors errors (Some base_dir) level w).1 = Return tt ∧
  stdout (log_errors errors (Some base_dir) level w).2 =
    stdout w ++ (if no_stdout w then [] else omap line_of (selected level errors)) ∧
  (∃ lines,
     read_file (fs (log_errors errors (Some base_dir) level w).2) log_path = Some lines ∧
     lines `sublist_of` omap line_of (selected level errors)) ∧
  (Forall (λ e, isEnabledFor (severity e) = true) (selected level errors) →
   read_file (fs (log_errors errors (Some base_dir) level w).2) log_path =
     Some (omap line_of (selected level errors))) ∧
  (∀ (overwrite : bool) (format location output : string) (w0 : World),
     inventory_checks overwrite format output w0 = true →
     ∃ w1,
       inventory overwrite format location output w0 =
         log_errors (inventory_errors location output w0)
           (Some (dirname output)) (verbosity_num w0) w1).
Proof.
  intros log_path Htruthy Hdir Hnodir Hall.
  destruct (log_errors_spec errors base_dir level w Htruthy Hdir Hnodir)
    as (i & done & Hhs & _ & Hknown & Hw).
  fold log_path in Hw.
  destruct (Hknown Hall) as [-> Hret].
  assert (Hread :
    read_file (fs (log_errors errors (Some base_dir) level w).2) log_path =
      Some (omap line_of (logged level errors))).
  { rewrite Hw. by apply read_error_log. }
  split_and!; [done | | | |].
  - by rewrite Hw.
  - eexists. split; [exact Hread | apply logged_lines_sublist].
  - intros Henabled. by rewrite Hread, logged_all.
  - intros overwrite format location output w0 Hchk.
    rewrite inventory_accepted by done. unfold inventory_errors.
    destruct (after_collect location output w0) as [[errs abouts] w2]. simpl.
    destruct abouts; by eexists.
Qed.

(** C10: when [collect_inventory] returns no record, [inventory] drops the
    errors it returned, reports the single error "No ABOUT files is found"
    and writes no CSV or JSON file; otherwise it writes the output in the
    selected format and then logs the errors. *)
Theorem inventory_output (overwrite : bool) (format location output : string)
    (w : World) :
  inventory_checks overwrite format output w = true →
  let collected := after_collect location output w in
  match collected.1.2 with
  | [] =>
      inventory overwrite format location output w =
        log_errors [mkError ERROR "No ABOUT files is found. Generation halted."]
          (Some (dirname output)) (verbosity_num w) collected.2 ∧
      calls (inventory overwrite format location output w).2 =
        calls w ++
        (if Py.endswith (Py.lower location) ".zip"
         then [ExtractZip location; CollectInventory (extract_zip location (fs w)).1]
         else [CollectInventory location])
  | (_ :: _) as abouts =>
      inventory overwrite format location output w =
        log_errors collected.1.1 (Some (dirname output)) (verbosity_num w)
          (if String.eqb format "json"
           then do_call (ToJson abouts output) (to_json abouts output) collected.2
           else do_call (ToCsv abouts output) (to_csv abouts output) collected.2).2 ∧
      calls (inventory overwrite format location output w).2 =
        calls collected.2 ++
        (if String.eqb format "json"
         then [ToJson abouts output] else [ToCsv abouts output])
  end.
Proof.
  intros Hchk collected.
  pose proof (inventory_accepted overwrite format location output w Hchk) as Hrun.
  pose proof (inventory_calls overwrite format location output w Hchk) as Hcalls.
  pose proof (after_collect_calls location output w) as Hpre.
  fold collected in Hrun, Hcalls, Hpre.
  destruct collected as [[errors abouts] w2]. simpl in *.
  destruct abouts as [| about abouts]; (split; [done |]).
  - by rewrite Hcalls, app_nil_r.
  - done.
Qed.

(** C6: [inventory] and [attrib] on a location ending with .zip, in any
    case, first replace it by the result of [extract_zip]:
    [collect_inventory] is called after the extraction, on the extracted
    location, and its records are the ones processed.  An [inventory] that
    fails a check returns before both. *)
Theorem zipped_location_is_extracted (location : string) (w : World) :
  Py.endswith (Py.lower location) ".zip" = true →
  let extracted := (extract_zip location (fs w)).1 in
  let abouts := (collect_inventory extracted (extract_zip location (fs w)).2).1.2 in
  (∀ (overwrite : bool) (format output : string),
     (inventory_checks overwrite format output w = true →
      calls (inventory overwrite format location output w).2 =
        calls w ++
        ExtractZip location :: CollectInventory extracted ::
        match abouts with
        | [] => []
        | _ :: _ =>
            if String.eqb format "json"
            then [ToJson abouts output] else [ToCsv abouts output]
        end) ∧
     (inventory_checks overwrite format output w = false →
      calls (inventory overwrite format location output w).2 = calls w)) ∧
  (∀ (output : string) (template : option string) (mapping : bool)
     (inventory_location : option string),
     calls (attrib location output template mapping inventory_location w).2 =
       calls w ++
       [ExtractZip location; CollectInventory extracted;
        GenerateAndSave abouts output mapping template inventory_location]).
Proof.
  intros Hzip extracted abouts. split.
  - intros overwrite format output. split; intros Hchk.
    + rewrite inventory_calls, after_collect_calls, after_collect_zip, Hzip by done.
      fold extracted. fold abouts. rewrite <- app_assoc. simpl.
      by destruct abouts.
    + by destruct (inventory_rejected overwrite format location output w Hchk)
        as (msg & rest & _ & _ & Hcalls & _).
  - intros output template mapping inventory_location.
    by rewrite attrib_calls, Hzip.
Qed.

(** C7: a subcommand either passes every check on its arguments and calls
    its collaborator, or fails one, prints a message and returns with no
    collaborator called and every file as it was; a failed check raises
    nothing. *)
Theorem validate_then_delegate (c : Subcommand) (w : World) :
  (checks_pass c w = true ∧ delegates c w (invoke c w).2) ∨
  (checks_pass c w = false ∧
   ∃ msg rest, rejected w (("ERROR: " +:+ msg) :: rest) (invoke c w)).
Proof.
  destruct c as [overwrite format location output
                | mapping ltl extract_license location output
                | location output template mapping inventory_location]; simpl.
  - destruct (inventory_checks overwrite format output w) eqn:Hchk; [left | right].
    + split; [done |]. unfold delegates.
      rewrite inventory_calls, after_collect_calls, <- app_assoc by done.
      destruct (Py.endswith (Py.lower location) ".zip");
        eexists _, (CollectInventory _);
        (split; [reflexivity |]); (split; [| done]);
        apply elem_of_app; left; rewrite !elem_of_cons; eauto.
    + split; [done |]. by apply inventory_rejected.
  - destruct (gen_checks location) eqn:Hchk; [left | right].
    + split; [done |].
      destruct (gen_accepted mapping ltl extract_license location output w Hchk)
        as (w1 & -> & _ & rest & Hcalls).
      match goal with
      | |- delegates _ _ (log_errors ?e ?b ?l ?w').2 =>
          destruct (log_errors_frame e b l w') as (_ & _ & Hc & _)
      end.
      exists (Generate mapping extract_license location output :: rest),
        (Generate mapping extract_license location output).
      rewrite Hc, Hcalls. split; [done |]. split; [by left | done].
    + split; [done |].
      exists "Input file. Only .csv and .json files are supported.", [EmptyString].
      by apply gen_rejected.
  - left. split; [done |]. unfold delegates. rewrite attrib_calls.
    destruct (Py.endswith (Py.lower location) ".zip");
      eexists _, (GenerateAndSave _ output mapping template inventory_location);
      (split; [reflexivity |]); (split; [| done]);
      rewrite !elem_of_cons; eauto 6.
Qed.

End Properties.

(** ** Further properties of the commands *)

Section More.

Context `{Env}.

(** *** Errors and edges of [log_errors] *)

Lemma for_each_app {A} (body : A → M unit) (l1 l2 : list A) (w : World) :
  for_each body (l1 ++ l2) w = bind (for_each body l1) (λ _, for_each body l2) w.
Proof.
  revert w. induction l1 as [| x l1 IH]; intros w; simpl; [done |].
  unfold bind in *. destruct (body x w) as [[[] | e] w1]; [apply IH | done].
Qed.

(** The loop returns as soon as every error is reportable. *)
Lemma log_loop_returns (base_dir : option string) (level : Z) (errors : list Error)
    (w : World) :
  Forall (reportable level) errors →
  for_each (log_error base_dir level) errors w =
    (Return tt, after_logging base_dir level errors w).
Proof.
  revert w. induction errors as [| e errors IH]; intros w Hall; simpl.
  { by rewrite after_logging_nil. }
  apply Forall_cons_1 in Hall as [He Hall]. unfold bind.
  destruct (decide (level ≤ severity e)) as [Hle | Hlt].
  - destruct (He Hle) as [sever Hsev].
    destruct (log_error_known base_dir level e sever w Hle Hsev) as (w1 & -> & Hw1).
    by rewrite IH, Hw1.
  - rewrite (log_error_skip base_dir level e w Hlt).
    by rewrite IH, after_logging_skip.
Qed.

(** The loop stops at the first error it cannot name. *)
Lemma log_loop_raises (base_dir : option string) (level : Z)
    (pre : list Error) (e : Error) (post : list Error) (w : World) :
  Forall (reportable level) pre →
  level ≤ severity e →
  severities !! severity e = None →
  for_each (log_error base_dir level) (pre ++ e :: post) w =
    (Raise (KeyError (severity e)), after_logging base_dir level pre w).
Proof.
  intros Hpre Hle Hnone. rewrite for_each_app. unfold bind.
  rewrite log_loop_returns by done. simpl. unfold bind.
  by rewrite log_error_unknown.
Qed.

(** X1: without a base directory ([False], the default, or an empty string)
    [log_errors] opens no log: the file system and the handlers of the file
    logger are as before, whether it returns or raises. *)
Theorem log_errors_without_base_dir (errors : list Error) (base_dir : option string)
    (level : Z) (w : World) :
  Py.truthy_opt base_dir = false →
  fs (log_errors errors base_dir level w).2 = fs w ∧
  file_handlers (log_errors errors base_dir level w).2 = file_handlers w ∧
  (Forall (reportable level) errors →
   (log_errors errors base_dir level w).1 = Return tt ∧
   stdout (log_errors errors base_dir level w).2 =
     stdout w ++ (if no_stdout w then [] else omap line_of (selected level errors))).
Proof.
  intros Hfalsy.
  assert (Hcreate : create_error_log base_dir w = (Return tt, w)).
  { unfold create_error_log. destruct base_dir as [d |]; [| done].
    simpl in Hfalsy. by rewrite Hfalsy. }
  unfold log_errors, bind. rewrite Hcreate. split_and!.
  - destruct (log_loop_spec base_dir level errors w) as (done & _ & -> & _).
    unfold after_logging. simpl. rewrite Hfalsy. simpl. by destruct (fs w).
  - by destruct (log_loop_spec base_dir level errors w) as (done & _ & -> & _).
  - intros Hall. by rewrite log_loop_returns.
Qed.

(** X2: [log_errors] raises [KeyError] at the first error at or above the
    level whose severity is not in [severities]: the errors before it are
    printed and logged, the ones after it are not, and the new [error.log]
    stays. *)
Theorem log_errors_unknown_severity (pre : list Error) (e : Error) (post : list Error)
    (base_dir : string) (level : Z) (w : World) :
  let log_path := join (to_posix base_dir) LOG_FILENAME in
  Py.truthy base_dir = true →
  names (fs w) !! dirname log_path = Some Dir →
  names (fs w) !! log_path ≠ Some Dir →
  Forall (reportable level) pre →
  level ≤ severity e →
  severities !! severity e = None →
  (log_errors (pre ++ e :: post) (Some base_dir) level w).1 =
    Raise (KeyError (severity e)) ∧
  stdout (log_errors (pre ++ e :: post) (Some base_dir) level w).2 =
    stdout w ++ (if no_stdout w then [] else omap line_of (selected level pre)) ∧
  read_file (fs (log_errors (pre ++ e :: post) (Some base_dir) level w).2) log_path =
    Some (omap line_of (logged level pre)).
Proof.
  intros log_path Htruthy Hdir Hnodir Hpre Hle Hnone.
  destruct (create_error_log_spec base_dir w Htruthy Hdir Hnodir)
    as (i & Hhs & Hino & Hcreate).
  fold log_path in Hcreate.
  unfold log_errors, bind. rewrite Hcreate.
  rewrite log_loop_raises by done. split_and!; [done | done |].
  by apply read_error_log.
Qed.

(** X3: the severity of an error below the level is never looked up: when
    every error at or above the level has its severity in [severities],
    [log_errors] returns and reports exactly those errors, whatever the
    severities of the others. *)
Theorem log_errors_skips_below_level (errors : list Error) (base_dir : string)
    (level : Z) (w : World) :
  let log_path := join (to_posix base_dir) LOG_FILENAME in
  Py.truthy base_dir = true →
  names (fs w) !! dirname log_path = Some Dir →
  names (fs w) !! log_path ≠ Some Dir →
  Forall (reportable level) errors →
  (log_errors errors (Some base_dir) level w).1 = Return tt ∧
  stdout (log_errors errors (Some base_dir) level w).2 =
    stdout w ++ (if no_stdout w then [] else omap line_of (selected level errors)) ∧
  read_file (fs (log_errors errors (Some base_dir) level w).2) log_path =
    Some (omap line_of (logged level errors)) ∧
  length (omap line_of (selected level errors)) = length (selected level errors).
Proof.
  intros log_path Htruthy Hdir Hnodir Hall.
  destruct (create_error_log_spec base_dir w Htruthy Hdir Hnodir)
    as (i & Hhs & Hino & Hcreate).
  fold log_path in Hcreate.
  unfold log_errors, bind. rewrite Hcreate.
  rewrite log_loop_returns by done. split_and!; [done | done | |].
  - by apply read_error_log.
  - unfold selected. clear -Hall.
    induction errors as [| e errors IH]; [done |].
    apply Forall_cons_1 in Hall as [He Hall].
    destruct (decide (level ≤ severity e)) as [Hle | Hlt].
    + rewrite filter_cons_True by done. simpl.
      destruct (He Hle) as [sever Hsev]. unfold line_of at 1. rewrite Hsev. simpl.
      f_equal. by apply IH.
    + rewrite filter_cons_False by done. by apply IH.
Qed.

(** X4: when [error.log] names a directory, or does not exist in a
    directory that does not exist either, [log_errors] raises [OSError]
    before the loop: no error is printed and nothing changes. *)
Theorem log_errors_cannot_open (errors : list Error) (base_dir : string)
    (level : Z) (w : World) :
  let log_path := join (to_posix base_dir) LOG_FILENAME in
  Py.truthy base_dir = true →
  names (fs w) !! log_path = Some Dir ∨
  (names (fs w) !! log_path = None ∧ names (fs w) !! dirname log_path ≠ Some Dir) →
  log_errors errors (Some base_dir) level w = (Raise (OSError log_path), w).
Proof.
  intros log_path Htruthy Hbad.
  unfold log_errors, create_error_log. rewrite Htruthy. fold log_path.
  unfold bind, get, ret, os_remove, open_append, path_exists. simpl.
  destruct Hbad as [Hdir | [Hnone Hparent]].
  - rewrite bool_decide_eq_true_2 by (rewrite Hdir; eauto). simpl.
    by rewrite Hdir.
  - rewrite bool_decide_eq_false_2 by (rewrite Hnone; by intros [? ?]). simpl.
    rewrite Hnone.
    destruct (names (fs w) !! dirname log_path) as [[j |] |]; done.
Qed.

(** *** Handlers and files across calls *)

Lemma emit_all_other (msgs : list string) (hs : list nat) (i : nat)
    (ino : gmap nat (list string)) :
  i ∉ hs → emit_all msgs hs ino !! i = ino !! i.
Proof.
  intros Hnotin. unfold emit_all. revert ino.
  induction msgs as [| msg msgs IH]; intros ino; simpl; [done |].
  by rewrite IH, emit_other.
Qed.

Lemma emit_all_once (msgs : list string) (hs1 hs2 : list nat) (i : nat)
    (ino : gmap nat (list string)) (content : list string) :
  i ∉ hs1 → i ∉ hs2 → ino !! i = Some content →
  emit_all msgs (hs1 ++ i :: hs2) ino !! i = Some (content ++ msgs).
Proof.
  intros Hhs1 Hhs2. unfold emit_all.
  revert ino content. induction msgs as [| msg msgs IH]; intros ino content Hi; simpl.
  { by rewrite app_nil_r. }
  rewrite (IH _ (content ++ [msg])).
  - by rewrite <- app_assoc.
  - rewrite foldl_app. simpl. rewrite emit_other by done.
    unfold append_line at 1.
    rewrite lookup_alter_eq, emit_other, Hi by done. done.
Qed.

(** The ways the block [if base_dir:] can end. *)
Lemma create_error_log_cases (d : string) (w : World) :
  let log_path := join (to_posix d) LOG_FILENAME in
  Py.truthy d = true →
  (∃ i : nat,
     (i ∉ file_handlers w) ∧
     inodes (fs w) !! i = None ∧
     create_error_log (Some d) w = (Return tt, with_error_log log_path i w)) ∨
  (∃ w1,
     create_error_log (Some d) w = (Raise (OSError log_path), w1) ∧
     file_handlers w1 = file_handlers w ∧
     stdout w1 = stdout w ∧
     inodes (fs w1) = inodes (fs w) ∧
     ∀ path, path ≠ log_path → names (fs w1) !! path = names (fs w) !! path).
Proof.
  intros log_path Htruthy.
  set (i := fresh (dom (inodes (fs w)) ∪ list_to_set (file_handlers w))).
  assert (Hfresh : i ∉ dom (inodes (fs w)) ∪ list_to_set (file_handlers w))
    by apply is_fresh.
  assert (Hhs : i ∉ file_handlers w).
  { intros Hin. apply Hfresh, elem_of_union_r. by apply elem_of_list_to_set. }
  assert (Hino : inodes (fs w) !! i = None).
  { apply not_elem_of_dom. intros Hin. by apply Hfresh, elem_of_union_l. }
  unfold create_error_log, with_error_log. rewrite Htruthy. fold log_path.
  unfold bind, get, ret, os_remove, open_append, addHandler, path_exists. simpl.
  destruct (names (fs w) !! log_path) as [[j |] |] eqn:Hlook.
  - rewrite bool_decide_eq_true_2 by eauto. simpl. rewrite Hlook. simpl.
    rewrite lookup_delete_eq.
    destruct (delete log_path (names (fs w)) !! dirname log_path) as [[k |] |] eqn:Hparent;
      simpl.
    + right. eexists. split; [reflexivity |]. simpl. split_and!; try done.
      intros path Hne. by rewrite lookup_delete_ne.
    + left. exists i. split_and!; [done | done |]. fold i. by rewrite insert_delete_eq.
    + right. eexists. split; [reflexivity |]. simpl. split_and!; try done.
      intros path Hne. by rewrite lookup_delete_ne.
  - rewrite bool_decide_eq_true_2 by eauto. simpl. rewrite Hlook. simpl.
    right. by eexists.
  - rewrite bool_decide_eq_false_2 by (by intros [? ?]). simpl. rewrite Hlook.
    destruct (names (fs w) !! dirname log_path) as [[k |] |] eqn:Hparent; simpl.
    + right. by eexists.
    + left. exists i. by fold i.
    + right. by eexists.
Qed.

(** X5: [log_errors] never detaches a handler from the file logger: a call
    leaves the handlers it found and adds at most one, none without a base
    directory and exactly one when it returns with one. *)
Theorem log_errors_keeps_handlers (errors : list Error) (base_dir : option string)
    (level : Z) (w : World) :
  ∃ new : list nat,
    file_handlers (log_errors errors base_dir level w).2 = file_handlers w ++ new ∧
    (length new ≤ 1)%nat ∧
    (Py.truthy_opt base_dir = false → new = []) ∧
    (Py.truthy_opt base_dir = true →
     (log_errors errors base_dir level w).1 = Return tt → length new = 1%nat).
Proof.
  unfold log_errors, bind.
  destruct (Py.truthy_opt base_dir) eqn:Htruthy.
  2: { assert (create_error_log base_dir w = (Return tt, w)) as ->.
       { unfold create_error_log. destruct base_dir as [d |]; [| done].
         simpl in Htruthy. by rewrite Htruthy. }
       destruct (log_loop_spec base_dir level errors w) as (done & _ & -> & _).
       exists []. simpl. rewrite app_nil_r. split_and!; (done || lia). }
  destruct base_dir as [d |]; [| done]. simpl in Htruthy.
  destruct (create_error_log_cases d w Htruthy)
    as [(i & Hhs & Hino & ->) | (w1 & -> & Hsame & _)].
  - destruct (log_loop_spec (Some d) level errors
                (with_error_log (join (to_posix d) LOG_FILENAME) i w))
      as (done & _ & -> & _).
    exists [i]. simpl. split_and!; (done || lia).
  - exists []. simpl. rewrite app_nil_r. split_and!; (done || lia).
Qed.

(** X6: the handlers add up over the calls of one process: after a second
    [log_errors] for another directory, the [error.log] of the first call
    holds the records of both calls, and that of the second call only its
    own. *)
Theorem log_errors_handlers_accumulate (errors1 errors2 : list Error)
    (dir1 dir2 : string) (level1 level2 : Z) (w : World) :
  let log1 := join (to_posix dir1) LOG_FILENAME in
  let log2 := join (to_posix dir2) LOG_FILENAME in
  Py.truthy dir1 = true →
  Py.truthy dir2 = true →
  log1 ≠ log2 →
  names (fs w) !! dirname log1 = Some Dir →
  names (fs w) !! log1 ≠ Some Dir →
  names (fs w) !! dirname log2 = Some Dir →
  names (fs w) !! log2 ≠ Some Dir →
  Forall (reportable level1) errors1 →
  Forall (reportable level2) errors2 →
  let w1 := (log_errors errors1 (Some dir1) level1 w).2 in
  let w2 := (log_errors errors2 (Some dir2) level2 w1).2 in
  read_file (fs w1) log1 = Some (omap line_of (logged level1 errors1)) ∧
  read_file (fs w2) log1 =
    Some (omap line_of (logged level1 errors1) ++ omap line_of (logged level2 errors2)) ∧
  read_file (fs w2) log2 = Some (omap line_of (logged level2 errors2)).
Proof.
  intros log1 log2 Ht1 Ht2 Hne Hdir1 Hnodir1 Hdir2 Hnodir2 Hall1 Hall2.
  destruct (create_error_log_spec dir1 w Ht1 Hdir1 Hnodir1) as (i & Hi & Hino & Hc1).
  fold log1 in Hc1.
  assert (Hw1 : (log_errors errors1 (Some dir1) level1 w).2 =
                after_logging (Some dir1) level1 errors1 (with_error_log log1 i w)).
  { unfold log_errors, bind. rewrite Hc1. by rewrite log_loop_returns. }
  cbv zeta. rewrite Hw1. set (w1 := after_logging _ _ _ _).
  assert (Hdir2' : names (fs w1) !! dirname log2 = Some Dir).
  { unfold w1, after_logging, with_error_log. simpl.
    rewrite lookup_insert_ne; [done |]. intros Heq. congruence. }
  assert (Hnodir2' : names (fs w1) !! log2 ≠ Some Dir).
  { unfold w1, after_logging, with_error_log. simpl. by rewrite lookup_insert_ne. }
  destruct (create_error_log_spec dir2 w1 Ht2 Hdir2' Hnodir2') as (j & Hj & Hjno & Hc2).
  fold log2 in Hc2.
  assert (Hw2 : (log_errors errors2 (Some dir2) level2 w1).2 =
                after_logging (Some dir2) level2 errors2 (with_error_log log2 j w1)).
  { unfold log_errors, bind. rewrite Hc2. by rewrite log_loop_returns. }
  rewrite Hw2.
  assert (Hread1 : inodes (fs w1) !! i = Some (omap line_of (logged level1 errors1))).
  { unfold w1, after_logging, with_error_log. simpl. rewrite Ht1.
    by rewrite (emit_all_lookup _ _ _ _ []) by (by rewrite ?lookup_insert_eq). }
  assert (Hhs1 : file_handlers w1 = file_handlers w ++ [i]) by done.
  assert (Hij : i ≠ j).
  { intros ->. apply Hj. rewrite Hhs1. apply elem_of_app. right. by left. }
  assert (Hnames1 : names (fs w1) = <[log1 := File i]> (names (fs w))) by done.
  set (w2 := after_logging (Some dir2) level2 errors2 (with_error_log log2 j w1)).
  assert (Hnames2 : names (fs w2) = <[log2 := File j]> (names (fs w1))) by done.
  assert (Hino2 : inodes (fs w2) =
    emit_all (if Py.truthy dir2 then omap line_of (logged level2 errors2) else [])
      (file_handlers w1 ++ [j]) (<[j := []]> (inodes (fs w1)))) by done.
  split_and!.
  - unfold read_file. by rewrite Hnames1, lookup_insert_eq.
  - unfold read_file.
    rewrite Hnames2, lookup_insert_ne, Hnames1, lookup_insert_eq by done.
    rewrite Hino2, Ht2, Hhs1, <- app_assoc. simpl.
    apply emit_all_once; [done | | ].
    + rewrite elem_of_cons, elem_of_nil. by intros [? | []].
    + by rewrite lookup_insert_ne.
  - by apply read_error_log.
Qed.

(** X7: [log_errors] writes to no file but [error.log] and the files its
    logger already holds open: any other file reads the same afterwards,
    whether the call returns or raises. *)
Theorem log_errors_keeps_other_files (errors : list Error) (base_dir : string)
    (level : Z) (path : string) (content : list string) (w : World) :
  Py.truthy base_dir = true →
  path ≠ join (to_posix base_dir) LOG_FILENAME →
  read_file (fs w) path = Some content →
  (∀ j, names (fs w) !! path = Some (File j) → j ∉ file_handlers w) →
  read_file (fs (log_errors errors (Some base_dir) level w).2) path = Some content.
Proof.
  intros Htruthy Hne Hread Hfree.
  unfold read_file in Hread.
  destruct (names (fs w) !! path) as [[j |] |] eqn:Hname; [| done | done].
  specialize (Hfree j eq_refl).
  unfold log_errors, bind.
  destruct (create_error_log_cases base_dir w Htruthy)
    as [(i & Hhs & Hino & ->) | (w1 & -> & _ & _ & Hsame & Hnames)].
  - destruct (log_loop_spec (Some base_dir) level errors
                (with_error_log (join (to_posix base_dir) LOG_FILENAME) i w))
      as (done & _ & -> & _).
    assert (Hij : j ≠ i) by congruence.
    unfold read_file, after_logging, with_error_log. simpl.
    rewrite lookup_insert_ne, Hname by done.
    rewrite emit_all_other, lookup_insert_ne; [done | done |].
    rewrite elem_of_app, elem_of_cons, elem_of_nil. by intros [? | [? | []]].
  - simpl. unfold read_file. by rewrite Hnames, Hname, Hsame.
Qed.

(** *** The verbosity *)

Lemma ignores_ret {A} (a : A) : ignores_verbosity (ret a).
Proof. by intros v w. Qed.

Lemma ignores_bind {A B} (m : M A) (k : A → M B) :
  ignores_verbosity m → (∀ a, ignores_verbosity (k a)) → ignores_verbosity (bind m k).
Proof.
  intros Hm Hk v w. unfold bind. rewrite Hm.
  destruct (m w) as [[a | e] w1]; simpl; [apply Hk | done].
Qed.

Lemma ignores_for_each {A} (body : A → M unit) (l : list A) :
  (∀ x, ignores_verbosity (body x)) → ignores_verbosity (for_each body l).
Proof.
  intros Hbody. induction l as [| x l IH]; simpl.
  - apply ignores_ret.
  - apply ignores_bind; [apply Hbody | by intros _].
Qed.

Lemma ignores_echo (line : string) : ignores_verbosity (echo line).
Proof. by intros v w. Qed.

Lemma ignores_call {X} (c : Call) (f : FS → X * FS) : ignores_verbosity (call c f).
Proof. intros v w. unfold call, do_call. simpl. by destruct (f (fs w)). Qed.

Lemma ignores_get {A} (proj : World → A) :
  (∀ v w, proj (set_verbosity_num v w) = proj w) → ignores_verbosity (get proj).
Proof. intros Hproj v w. unfold get. simpl. by rewrite Hproj. Qed.

Lemma ignores_unzip_location (location : string) :
  ignores_verbosity (unzip_location location).
Proof.
  unfold unzip_location. destruct (Py.endswith _ _);
    [apply ignores_call | apply ignores_ret].
Qed.

Lemma ignores_create_error_log (base_dir : option string) :
  ignores_verbosity (create_error_log base_dir).
Proof.
  intros v w. unfold create_error_log.
  destruct base_dir as [d |]; [| done]. destruct (Py.truthy d); [| done].
  unfold bind, get, ret, os_remove, open_append, addHandler. simpl.
  repeat (case_match; simplify_eq/=); done.
Qed.

Lemma ignores_log_error (base_dir : option string) (level : Z) (e : Error) :
  ignores_verbosity (log_error base_dir level e).
Proof.
  intros v w. unfold log_error. destruct e as [sev msg].
  destruct (level <=? sev); [| done].
  unfold bind, severities_get, get, ret, raise, echo, file_logger_log. simpl.
  repeat (case_match; simplify_eq/=); done.
Qed.

Lemma ignores_log_errors (errors : list Error) (base_dir : option string) (level : Z) :
  ignores_verbosity (log_errors errors base_dir level).
Proof.
  unfold log_errors. apply ignores_bind; [apply ignores_create_error_log |].
  intros _. apply ignores_for_each. apply ignores_log_error.
Qed.

Create HintDb ignores.
Hint Resolve ignores_echo ignores_call ignores_unzip_location ignores_log_errors
  : ignores.

Ltac ignores :=
  repeat first
    [ solve [auto with ignores]
    | apply ignores_ret
    | apply ignores_bind; [| intros ?]
    | match goal with
      | |- ignores_verbosity (if ?b then _ else _) => destruct b
      | |- ignores_verbosity (match ?x with _ => _ end) => destruct x
      end ].

Lemma ignores_gen (mapping : bool) (license_text_location : option string)
    (extract_license : option (string * string)) (location output : string) :
  ignores_verbosity (gen mapping license_text_location extract_license location output).
Proof. unfold gen. cbv zeta. ignores. Qed.

Lemma ignores_attrib (location output : string) (template : option string)
    (mapping : bool) (inventory_location : option string) :
  ignores_verbosity (attrib location output template mapping inventory_location).
Proof. unfold attrib. ignores. Qed.

(** X8: [gen] and [attrib] never read [verbosity_num]: whatever [-v] is
    given, they print the same lines, write the same files and call the same
    collaborators. *)
Theorem gen_and_attrib_ignore_verbose (verbose1 verbose2 : Z) (quiet : bool) (w : World) :
  (∀ (mapping : bool) (license_text_location : option string)
     (extract_license : option (string * string)) (location output : string),
     same_run
       (about verbose1 quiet
          (Gen mapping license_text_location extract_license location output) w)
       (about verbose2 quiet
          (Gen mapping license_text_location extract_license location output) w)) ∧
  (∀ (location output : string) (template : option string) (mapping : bool)
     (inventory_location : option string),
     same_run
       (about verbose1 quiet
          (Attrib location output template mapping inventory_location) w)
       (about verbose2 quiet
          (Attrib location output template mapping inventory_location) w)).
Proof.
  assert (Habout : ∀ v c, about v quiet c w =
            invoke c (set_verbosity_num v (set_no_stdout quiet w))) by done.
  split; intros; rewrite !Habout; simpl.
  - by rewrite !ignores_gen.
  - by rewrite !ignores_attrib.
Qed.

(** *** What is printed *)

#[local] Instance stdout_grows_refl : Reflexive stdout_grows.
Proof. intros w. unfold stdout_grows. reflexivity. Qed.

#[local] Instance stdout_grows_trans : Transitive stdout_grows.
Proof. intros w1 w2 w3. unfold stdout_grows. by etrans. Qed.

Lemma echo_grows (line : string) : preserves stdout_grows (echo line).
Proof. intros w. unfold stdout_grows. simpl. by apply prefix_app_r. Qed.

Lemma get_grows {A} (proj : World → A) : preserves stdout_grows (get proj).
Proof. intros w. unfold stdout_grows. reflexivity. Qed.

Lemma call_grows {X} (c : Call) (f : FS → X * FS) : preserves stdout_grows (call c f).
Proof.
  intros w. unfold call, do_call, stdout_grows.
  destruct (f (fs w)). simpl. reflexivity.
Qed.

Lemma unzip_location_grows (location : string) :
  preserves stdout_grows (unzip_location location).
Proof.
  unfold unzip_location. destruct (Py.endswith _ _);
    [apply call_grows | apply preserves_ret; apply _].
Qed.

Lemma log_errors_grows (errors : list Error) (base_dir : option string) (level : Z) :
  preserves stdout_grows (log_errors errors base_dir level).
Proof.
  intros w. unfold stdout_grows.
  destruct (create_error_log_frame base_dir w) as (Hout & _).
  unfold log_errors, bind.
  destruct (create_error_log base_dir w) as [[[] | e] w1]; simpl in *.
  - destruct (log_loop_spec base_dir level errors w1) as (done & _ & -> & _).
    unfold after_logging. simpl. rewrite Hout. by apply prefix_app_r.
  - rewrite Hout. reflexivity.
Qed.

Create HintDb grows.
Hint Resolve echo_grows get_grows call_grows unzip_location_grows log_errors_grows
  : grows.

Ltac grows :=
  repeat first
    [ solve [auto with grows]
    | apply preserves_ret; apply _
    | apply preserves_bind; [apply _ | | intros ?]
    | match goal with
      | |- preserves _ (if ?b then _ else _) => destruct b
      | |- preserves _ (match ?x with _ => _ end) => destruct x
      end ].

Lemma banner_first (rest : M unit) (w : World) :
  preserves stdout_grows rest →
  ∃ lines, stdout (bind (echo running) (λ _, rest) w).2 = stdout w ++ running :: lines.
Proof.
  intros Hrest. unfold bind, echo. simpl.
  destruct (Hrest (set_stdout (stdout w ++ [running]) w)) as [lines Hlines].
  exists lines. rewrite Hlines. simpl. by rewrite <- app_assoc.
Qed.

(** X9: every callback, the stubs included, first prints the line
    [Running about-code-tool version ...] and then only appends to stdout,
    also when [no_stdout] is set: [--quiet] silences the errors of
    [log_errors], not the commands.  The stubs [export], [fetch] and
    [redist] print one more line and return, with no collaborator called and
    no file or handler touched, whatever their arguments. *)
Theorem banner_is_always_printed (c : Callback) (quiet : bool) (w : World) :
  (∃ lines,
     stdout (callback c (set_no_stdout quiet w)).2 = stdout w ++ running :: lines) ∧
  match c with
  | Command _ => True
  | _ =>
      (callback c (set_no_stdout quiet w)).1 = Return tt ∧
      length (stdout (callback c (set_no_stdout quiet w)).2) = (length (stdout w) + 2)%nat ∧
      fs (callback c (set_no_stdout quiet w)).2 = fs w ∧
      calls (callback c (set_no_stdout quiet w)).2 = calls w ∧
      file_handlers (callback c (set_no_stdout quiet w)).2 = file_handlers w
  end.
Proof.
  split.
  - change (stdout w) with (stdout (set_no_stdout quiet w)).
    generalize (set_no_stdout quiet w) as w0. intros w0.
    destruct c as [[| |] | | |]; simpl.
    + unfold inventory. cbv zeta. apply banner_first. grows.
    + unfold gen. cbv zeta. apply banner_first. grows.
    + unfold attrib. apply banner_first. grows.
    + exists ["Exporting zip archive..."]. by rewrite <- app_assoc.
    + exists ["Updating ABOUT files..."]. by rewrite <- app_assoc.
    + exists ["Collecting redistributable files..."]. by rewrite <- app_assoc.
  - destruct c; [done | | |]; simpl; rewrite !length_app; simpl;
      split_and!; (done || lia).
Qed.

(** *** The checks of [inventory] *)

(** X10: once the overwrite check has passed, [inventory] reports the first
    check that fails and returns without processing: a missing directory of
    the output before the format, and the format, named in the message,
    before the .csv ending. *)
Theorem inventory_reports_first_failure (overwrite : bool)
    (format location output : string) (w : World) :
  path_exists (fs w) output && negb overwrite = false →
  (path_exists (fs w) (dirname output) = false →
   rejected w
     ["ERROR: Path to the <output> does not exists. Please check and correct the <output>.";
      EmptyString]
     (inventory overwrite format location output w)) ∧
  (path_exists (fs w) (dirname output) = true →
   format ∉ formats →
   rejected w
     ["ERROR: Output format: " +:+ format +:+ " is not supported."; EmptyString]
     (inventory overwrite format location output w)) ∧
  (path_exists (fs w) (dirname output) = true →
   format = "csv" →
   Py.endswith output ".csv" = false →
   rejected w
     ["ERROR: <output> must be a CSV file ending with " +:+
      dquote +:+ ".csv" +:+ dquote +:+ "."; EmptyString]
     (inventory overwrite format location output w)).
Proof.
  intros Hover. unfold inventory, rejected, bind, ret, echo, get. simpl.
  rewrite Hover. simpl. split_and!.
  - intros ->. simpl. by rewrite <- !app_assoc.
  - intros -> Hfmt. simpl. rewrite (bool_decide_eq_false_2 _ Hfmt). simpl.
    by rewrite <- !app_assoc.
  - intros -> -> ->. simpl. by rewrite <- !app_assoc.
Qed.

(** *** The collaborators of [gen] and [attrib] *)

(** X11: a [gen] that passed its check calls [generate] first, then
    [verify_license_files] exactly when a license directory is given, and
    [copy_files] exactly when the verification returned a non-empty
    dictionary; it calls nothing else. *)
Theorem gen_calls (mapping : bool) (license_text_location : option string)
    (extract_license : option (string * string)) (location output : string)
    (w : World) :
  gen_checks location = true →
  calls (gen mapping license_text_location extract_license location output w).2 =
    calls w ++
    Generate mapping extract_license location output ::
    (let '((_, abouts), f1) :=
       generate mapping extract_license location output (fs w) in
     if Py.truthy_opt license_text_location then
       let ltl := default EmptyString license_text_location in
       let '((lic_loc_dict, _), _) := verify_license_files abouts ltl f1 in
       VerifyLicenseFiles abouts ltl ::
       (if bool_decide (lic_loc_dict = ∅) then []
        else [CopyFiles lic_loc_dict output])
     else []).
Proof.
  intros Hchk. unfold gen_checks in Hchk.
  assert (Hif : negb (Py.endswith location ".csv") &&
                negb (Py.endswith location ".json") = false).
  { destruct (Py.endswith location ".csv"), (Py.endswith location ".json"); done. }
  assert (Hlog : ∀ errors base_dir level w' trace,
            calls w' = trace →
            calls (log_errors errors base_dir level w').2 = trace).
  { intros errors base_dir level w' trace <-.
    by destruct (log_errors_frame errors base_dir level w') as (_ & _ & -> & _). }
  unfold gen, bind, ret, echo. rewrite Hif.
  unfold call, do_call. cbn -[log_errors].
  destruct (generate mapping extract_license location output (fs w))
    as [[errors abouts] f1]. cbn -[log_errors].
  destruct license_text_location as [ltl |]; cbn -[log_errors].
  2: { apply Hlog. done. }
  destruct (Py.truthy ltl); cbn -[log_errors].
  2: { apply Hlog. done. }
  destruct (verify_license_files abouts ltl f1) as [[lic_loc_dict lic_file_err] f2].
  cbn -[log_errors].
  destruct (bool_decide (lic_loc_dict = ∅)); cbn -[log_errors];
    try destruct (copy_files lic_loc_dict output f2) as [[] f3]; cbn -[log_errors];
    destruct lic_file_err as [| file_err lic_file_err]; cbn -[log_errors];
    apply Hlog; cbn; by rewrite <- ?app_assoc.
Qed.

Lemma log_errors_prints_reportable (errors : list Error) (base_dir : option string)
    (level : Z) (w : World) :
  (create_error_log base_dir w).1 = Return tt →
  Forall (reportable level) errors →
  (log_errors errors base_dir level w).1 = Return tt ∧
  stdout (log_errors errors base_dir level w).2 =
    stdout w ++ (if no_stdout w then [] else omap line_of (selected level errors)).
Proof.
  intros Hcreate Hall.
  destruct (create_error_log_frame base_dir w) as (Hout & Hq & _).
  unfold log_errors, bind.
  destruct (create_error_log base_dir w) as [[[] | e] w1]; simpl in *; [| done].
  rewrite log_loop_returns by done. unfold after_logging. simpl.
  by rewrite Hout, Hq.
Qed.

Lemma attrib_run (location output : string) (template : option string)
    (mapping : bool) (inventory_location : option string) (w : World) :
  attrib location output template mapping inventory_location w =
    bind
      (log_errors
         (after_generate_and_save location output template mapping
            inventory_location w).1
         (Some (dirname output)) NOTSET)
      (λ _, echo "Finished.")
      (after_generate_and_save location output template mapping
         inventory_location w).2.
Proof.
  unfold attrib, after_generate_and_save.
  unfold bind at 1 2 3 4 5. unfold echo at 1 2. cbn -[log_errors bind].
  unfold unzip_location, call, ret, set_stdout. cbn -[log_errors bind].
  rewrite <- !app_assoc. cbn -[log_errors bind].
  destruct (Py.endswith (Py.lower location) ".zip"); cbn -[log_errors bind].
  - destruct (do_call (ExtractZip location) _ _) as [location' w1]. cbn -[log_errors bind].
    destruct (do_call (CollectInventory location') _ w1) as [[errors abouts] w2].
    cbn -[log_errors bind].
    by destruct (do_call (GenerateAndSave _ _ _ _ _) _ w2) as [no_match_errors w3].
  - destruct (do_call (CollectInventory location) _ _) as [[errors abouts] w2].
    cbn -[log_errors bind].
    by destruct (do_call (GenerateAndSave _ _ _ _ _) _ w2) as [no_match_errors w3].
Qed.

Lemma after_generate_and_save_frame (location output : string)
    (template : option string) (mapping : bool) (inventory_location : option string)
    (w : World) :
  stdout (after_generate_and_save location output template mapping
            inventory_location w).2 =
    stdout w ++ [running; "Generating attribution..."] ∧
  no_stdout (after_generate_and_save location output template mapping
               inventory_location w).2 = no_stdout w.
Proof.
  unfold after_generate_and_save, do_call. simpl.
  destruct (Py.endswith (Py.lower location) ".zip"); simpl.
  - destruct (extract_zip location (fs w)) as [location' f1]. simpl.
    destruct (collect_inventory location' f1) as [[errors abouts] f2]. simpl.
    by destruct (generate_and_save abouts output mapping template inventory_location f2).
  - destruct (collect_inventory location (fs w)) as [[errors abouts] f2]. simpl.
    by destruct (generate_and_save abouts output mapping template inventory_location f2).
Qed.

(** X12: [attrib] hands to [log_errors] the errors of [generate_and_save]
    alone, with no level: the errors [collect_inventory] returned are never
    reported.  It prints [Finished.] last when [log_errors] returns, and
    nothing more when it raises. *)
Theorem attrib_reports (location output : string) (template : option string)
    (mapping : bool) (inventory_location : option string) (w : World) :
  let saved :=
    after_generate_and_save location output template mapping inventory_location w in
  let logged_run := log_errors saved.1 (Some (dirname output)) NOTSET saved.2 in
  (attrib location output template mapping inventory_location w).1 = logged_run.1 ∧
  (logged_run.1 ≠ Return tt →
   (attrib location output template mapping inventory_location w).2 = logged_run.2) ∧
  ((create_error_log (Some (dirname output)) saved.2).1 = Return tt →
   Forall (reportable NOTSET) saved.1 →
   (attrib location output template mapping inventory_location w).1 = Return tt ∧
   stdout (attrib location output template mapping inventory_location w).2 =
     stdout w ++ [running; "Generating attribution..."] ++
     (if no_stdout w then [] else omap line_of (selected NOTSET saved.1)) ++
     ["Finished."]).
Proof.
  intros saved logged_run. rewrite attrib_run. unfold bind.
  fold saved. fold logged_run.
  assert (Hprints :
    (create_error_log (Some (dirname output)) saved.2).1 = Return tt →
    Forall (reportable NOTSET) saved.1 →
    logged_run.1 = Return tt ∧
    stdout logged_run.2 =
      (stdout w ++ [running; "Generating attribution..."]) ++
      (if no_stdout w then [] else omap line_of (selected NOTSET saved.1))).
  { intros Hcreate Hall.
    destruct (log_errors_prints_reportable saved.1 (Some (dirname output)) NOTSET
                saved.2 Hcreate Hall) as [Hret Hout].
    destruct (after_generate_and_save_frame location output template mapping
                inventory_location w) as [Hsaved Hquiet].
    fold saved in Hsaved, Hquiet. split; [done |].
    unfold logged_run. by rewrite Hout, Hsaved, Hquiet. }
  clearbody logged_run.
  destruct logged_run as [[[] | e] w4]; simpl in *; split_and!; try done.
  - intros Hcreate Hall. destruct (Hprints Hcreate Hall) as [_ ->].
    split; [done |]. by rewrite <- !app_assoc.
  - intros Hcreate Hall. by destruct (Hprints Hcreate Hall) as [? _].
Qed.

(** *** The quiet flag *)

Lemma blind_ret {A} (a : A) : quiet_blind (ret a).
Proof. by intros w w' Hsame. Qed.

Lemma blind_bind {A B} (m : M A) (k : A → M B) :
  quiet_blind m → (∀ a, quiet_blind (k a)) → quiet_blind (bind m k).
Proof.
  intros Hm Hk w w' Hsame. unfold bind.
  destruct (Hm w w' Hsame) as [Hres Hsame1].
  destruct (m w) as [[a | e] w1], (m w') as [[a' | e'] w1'];
    simpl in *; simplify_eq; [by apply Hk | done].
Qed.

Lemma blind_for_each {A} (body : A → M unit) (l : list A) :
  (∀ x, quiet_blind (body x)) → quiet_blind (for_each body l).
Proof.
  intros Hbody. induction l as [| x l IH]; simpl.
  - apply blind_ret.
  - apply blind_bind; [apply Hbody | by intros _].
Qed.

Ltac blind_prim :=
  intros [wf wo wh q wv wc] [wf' wo' wh' q' wv' wc'] (? & ? & ? & ?);
  simpl in *; subst.

Lemma blind_echo (line : string) : quiet_blind (echo line).
Proof. by blind_prim. Qed.

Lemma blind_call {X} (c : Call) (f : FS → X * FS) : quiet_blind (call c f).
Proof. blind_prim. unfold call, do_call. simpl. by destruct (f wf'). Qed.

Lemma blind_get {A} (proj : World → A) :
  (∀ w w', same_but_stdout w w' → proj w = proj w') → quiet_blind (get proj).
Proof. intros Hproj w w' Hsame. unfold get. simpl. by rewrite (Hproj w w' Hsame). Qed.

Lemma blind_get_fs {A} (proj : FS → A) : quiet_blind (get (λ w, proj (fs w))).
Proof. apply blind_get. by intros w w' (-> & _). Qed.

Lemma blind_get_verbosity : quiet_blind (get verbosity_num).
Proof. apply blind_get. by intros w w' (_ & _ & -> & _). Qed.

Lemma blind_unzip_location (location : string) : quiet_blind (unzip_location location).
Proof.
  unfold unzip_location. destruct (Py.endswith _ _);
    [apply blind_call | apply blind_ret].
Qed.

Lemma blind_create_error_log (base_dir : option string) :
  quiet_blind (create_error_log base_dir).
Proof.
  blind_prim. unfold create_error_log.
  destruct base_dir as [d |]; [| done]. destruct (Py.truthy d); [| done].
  unfold bind, get, ret, os_remove, open_append, addHandler, same_but_stdout. simpl.
  repeat (case_match; simplify_eq/=); done.
Qed.

Lemma blind_log_error (base_dir : option string) (level : Z) (e : Error) :
  quiet_blind (log_error base_dir level e).
Proof.
  blind_prim. unfold log_error. destruct e as [sev msg].
  destruct (level <=? sev); [| done].
  unfold bind, severities_get, get, ret, raise, echo, file_logger_log, same_but_stdout.
  simpl.
  destruct q, q'; repeat (case_match; simplify_eq/=); done.
Qed.

Lemma blind_log_errors (errors : list Error) (base_dir : option string) (level : Z) :
  quiet_blind (log_errors errors base_dir level).
Proof.
  unfold log_errors. apply blind_bind; [apply blind_create_error_log |].
  intros _. apply blind_for_each. apply blind_log_error.
Qed.

Create HintDb blind.
Hint Resolve blind_echo blind_call blind_get_fs blind_get_verbosity
  blind_unzip_location blind_log_errors : blind.

Ltac blind :=
  repeat first
    [ solve [auto with blind]
    | apply blind_ret
    | apply (blind_get_fs (λ f, path_exists f _))
    | apply blind_bind; [| intros ?]
    | match goal with
      | |- quiet_blind (if ?b then _ else _) => destruct b
      | |- quiet_blind (match ?x with _ => _ end) => destruct x
      end ].

Lemma blind_invoke (c : Subcommand) : quiet_blind (invoke c).
Proof.
  destruct c; simpl.
  - unfold inventory. cbv zeta. blind.
  - unfold gen. cbv zeta. blind.
  - unfold attrib. blind.
Qed.

(** X13: [--quiet] changes stdout and nothing else: with and without it a
    subcommand returns or raises alike, calls the same collaborators and
    leaves the same files, [error.log] included, and the same handlers. *)
Theorem quiet_changes_stdout_only (verbose : Z) (c : Subcommand) (w : World) :
  (about verbose true c w).1 = (about verbose false c w).1 ∧
  fs (about verbose true c w).2 = fs (about verbose false c w).2 ∧
  file_handlers (about verbose true c w).2 = file_handlers (about verbose false c w).2 ∧
  calls (about verbose true c w).2 = calls (about verbose false c w).2.
Proof.
  assert (Habout : ∀ q, about verbose q c w =
            invoke c (set_verbosity_num verbose (set_no_stdout q w))) by done.
  rewrite !Habout.
  destruct (blind_invoke c (set_verbosity_num verbose (set_no_stdout true w))
              (set_verbosity_num verbose (set_no_stdout false w)))
    as (Hres & Hfs & Hhs & _ & Hcalls); done.
Qed.

End More.

(** ** The commands on the sample installation *)

Section Runs.

#[local] Existing Instance Sample.env.

(** Against C1 as stated: under [--quiet] an error at or above the
    configured verbosity is written to [error.log] and not printed. *)
Lemma quiet_inventory_prints_no_error :
  let run := about 30 true (Inventory true "csv" "/src" "/out/inv.csv") Sample.world in
  let e := mkError ERROR "Field name is required" in
  run.1 = Return tt ∧
  e ∈ inventory_errors "/src" "/out/inv.csv" Sample.world ∧
  verbosity_num run.2 ≤ severity e ∧
  line_of e = Some "ERROR: Field name is required" ∧
  ¬ ("ERROR: Field name is required" ∈ stdout run.2) ∧
  read_file (fs run.2) "/out/error.log" = Some ["ERROR: Field name is required"].
Proof.
  cbv zeta. split_and!.
  - vm_compute. reflexivity.
  - assert (inventory_errors "/src" "/out/inv.csv" Sample.world =
            [mkError INFO "1 ABOUT file read"; mkError ERROR "Field name is required"])
      as -> by (vm_compute; reflexivity).
    apply list_elem_of_further, list_elem_of_here.
  - vm_compute. discriminate.
  - vm_compute. reflexivity.
  - assert (stdout (about 30 true (Inventory true "csv" "/src" "/out/inv.csv")
                      Sample.world).2 =
            ["Running about-code-tool version 3.0.0";
             "Collecting the inventory from location: /src and writing output to: /out/inv.csv"])
      as -> by (vm_compute; reflexivity).
    rewrite !elem_of_cons, elem_of_nil. intros [? | [? | []]]; discriminate.
  - vm_compute. reflexivity.
Qed.

Lemma log_errors_reports_witness :
  stdout (log_errors [mkError ERROR "broken"; mkError INFO "read"; mkError WARNING "odd"]
            (Some "/out") WARNING Sample.world).2 =
    ["ERROR: broken"; "WARNING: odd"] ∧
  read_file
    (fs (log_errors [mkError ERROR "broken"; mkError INFO "read"; mkError WARNING "odd"]
           (Some "/out") WARNING Sample.world).2)
    "/out/error.log" = Some ["ERROR: broken"; "WARNING: odd"].
Proof.
  destruct (log_errors_reports
              [mkError ERROR "broken"; mkError INFO "read"; mkError WARNING "odd"]
              "/out" WARNING Sample.world) as (_ & Hout & _ & Hlog & _).
  - reflexivity.
  - vm_compute. reflexivity.
  - vm_compute. discriminate.
  - repeat constructor; vm_compute; eauto.
  - split; [exact Hout |]. apply Hlog. vm_compute. repeat constructor.
Defined.

(** [gen] calls [log_errors] without a level, so the threshold of its report
    is NOTSET and not [verbosity_num]: under [-v 40] a WARNING (30) and an
    INFO (20) error are printed, and the WARNING one is logged. *)
Lemma gen_ignores_verbosity :
  let run := about 40 false (Gen false None None "/src/inv.csv" "/out") Sample.world in
  run.1 = Return tt ∧
  verbosity_num run.2 = 40 ∧
  stdout run.2 =
    ["Running about-code-tool version 3.0.0";
     "Generating ABOUT files...";
     "Generated 2 ABOUT files with 1 errors and/or warning";
     "WARNING: Field about_resource is missing";
     "INFO: Field custom is a custom field"] ∧
  read_file (fs run.2) "/out/error.log" =
    Some ["WARNING: Field about_resource is missing"].
Proof. vm_compute. done. Qed.

(** [inventory] does pass [verbosity_num]: under [-v 40] its INFO error is
    not reported. *)
Lemma inventory_honours_verbosity :
  let run := about 40 false (Inventory true "csv" "/src" "/out/inv.csv") Sample.world in
  stdout run.2 =
    ["Running about-code-tool version 3.0.0";
     "Collecting the inventory from location: /src and writing output to: /out/inv.csv";
     "ERROR: Field name is required"] ∧
  read_file (fs run.2) "/out/error.log" = Some ["ERROR: Field name is required"].
Proof. vm_compute. done. Qed.

(** With the logging defaults the file logger drops what is below WARNING:
    under [-v 20] the INFO error is printed and not logged. *)
Lemma info_is_printed_not_logged :
  let run := about 20 false (Inventory true "csv" "/src" "/out/inv.csv") Sample.world in
  stdout run.2 =
    ["Running about-code-tool version 3.0.0";
     "Collecting the inventory from location: /src and writing output to: /out/inv.csv";
     "INFO: 1 ABOUT file read";
     "ERROR: Field name is required"] ∧
  read_file (fs run.2) "/out/error.log" = Some ["ERROR: Field name is required"].
Proof. vm_compute. done. Qed.

Lemma inventory_refuses_overwrite_witness :
  path_exists (fs Sample.world) "/out/inv.csv" = true ∧
  rejected Sample.world
    ["ERROR: <output> file already exists.";
     "Select a different file name or use the --overwrite option after the `inventory`.";
     EmptyString]
    (inventory false "csv" "/src" "/out/inv.csv" Sample.world).
Proof.
  split; [vm_compute; reflexivity |].
  apply (inventory_refuses_overwrite "csv" "/src" "/out/inv.csv" Sample.world).
  vm_compute. reflexivity.
Defined.

Lemma log_errors_replaces_error_log_witness :
  read_file (fs Sample.world) "/out/error.log" = Some ["ERROR: an old run"] ∧
  ∃ done : list Error,
    done `prefix_of` [mkError ERROR "broken"; mkError INFO "read"] ∧
    (Forall known [mkError ERROR "broken"; mkError INFO "read"] →
     done = [mkError ERROR "broken"; mkError INFO "read"] ∧
     (log_errors [mkError ERROR "broken"; mkError INFO "read"] (Some "/out") NOTSET
        Sample.world).1 = Return tt) ∧
    read_file
      (fs (log_errors [mkError ERROR "broken"; mkError INFO "read"] (Some "/out") NOTSET
             Sample.world).2)
      (join (to_posix "/out") LOG_FILENAME) =
      Some (omap line_of (logged NOTSET done)).
Proof.
  split; [vm_compute; reflexivity |].
  apply (log_errors_replaces_error_log
           [mkError ERROR "broken"; mkError INFO "read"] "/out" NOTSET Sample.world).
  - reflexivity.
  - vm_compute. reflexivity.
  - vm_compute. discriminate.
Defined.

Lemma inventory_rejects_format_witness :
  ∃ msg rest,
    rejected Sample.world (("ERROR: " +:+ msg) :: rest)
      (inventory true "csv" "/src" "/out/inv.txt" Sample.world).
Proof.
  apply (inventory_rejects_format true "csv" "/src" "/out/inv.txt" Sample.world).
  right. split; [discriminate | reflexivity].
Defined.

Lemma gen_rejects_extension_witness :
  rejected Sample.world
    ["ERROR: Input file. Only .csv and .json files are supported."; EmptyString]
    (gen false None None "/src/inv.txt" "/out" Sample.world).
Proof.
  apply (gen_rejects_extension false None None "/src/inv.txt" "/out" Sample.world);
    reflexivity.
Defined.

Lemma zipped_location_is_extracted_witness :
  calls (inventory true "json" "/src/pkg.ZIP" "/out/inv.json" Sample.zipped_world).2 =
    [ExtractZip "/src/pkg.ZIP"; CollectInventory "/src/pkg.ZIP.d";
     ToJson ["/src/pkg.ZIP.d"] "/out/inv.json"] ∧
  calls (inventory false "json" "/src/pkg.ZIP" "/out/inv.csv" Sample.zipped_world).2 = [] ∧
  calls (attrib "/src/pkg.ZIP" "/out/attrib.html" None false None Sample.zipped_world).2 =
    [ExtractZip "/src/pkg.ZIP"; CollectInventory "/src/pkg.ZIP.d";
     GenerateAndSave ["/src/pkg.ZIP.d"] "/out/attrib.html" false None None].
Proof.
  destruct (zipped_location_is_extracted "/src/pkg.ZIP" Sample.zipped_world eq_refl)
    as [Hinventory Hattrib].
  split_and!.
  - apply (proj1 (Hinventory true "json" "/out/inv.json")). vm_compute. reflexivity.
  - apply (proj2 (Hinventory false "json" "/out/inv.csv")). vm_compute. reflexivity.
  - apply Hattrib.
Defined.

Lemma gen_summary_counts_witness :
  ∃ w1,
    gen false None None "/src/inv.csv" "/out" Sample.world =
      log_errors
        [mkError WARNING "Field about_resource is missing";
         mkError INFO "Field custom is a custom field"]
        (Some "/out") NOTSET w1 ∧
    stdout w1 =
      ["Running about-code-tool version 3.0.0"; "Generating ABOUT files...";
       "Generated 2 ABOUT files with 1 errors and/or warning"].
Proof.
  apply (proj1 (gen_summary_counts false None None "/src/inv.csv" "/out" Sample.world
                  eq_refl)).
Defined.

Lemma inventory_output_witness :
  calls (inventory true "json" "/src" "/out/inv.json" Sample.world).2 =
    [CollectInventory "/src"; ToJson ["/src"] "/out/inv.json"].
Proof.
  apply (proj2 (inventory_output true "json" "/src" "/out/inv.json" Sample.world eq_refl)).
Defined.

End Runs.

(** ** The further properties on the sample installation *)

Section MoreRuns.

#[local] Existing Instance Sample.env.

Lemma log_errors_without_base_dir_witness :
  fs (log_errors [mkError ERROR "broken"] None NOTSET Sample.world).2 = fs Sample.world ∧
  file_handlers (log_errors [mkError ERROR "broken"] None NOTSET Sample.world).2 = [].
Proof.
  destruct (log_errors_without_base_dir [mkError ERROR "broken"] None NOTSET
              Sample.world eq_refl) as (Hfs & Hhs & _).
  split; [exact Hfs | exact Hhs].
Defined.

Lemma log_errors_unknown_severity_witness :
  (log_errors [mkError ERROR "broken"; mkError 35 "odd"; mkError CRITICAL "late"]
     (Some "/out") NOTSET Sample.world).1 = Raise (KeyError 35) ∧
  stdout (log_errors [mkError ERROR "broken"; mkError 35 "odd"; mkError CRITICAL "late"]
            (Some "/out") NOTSET Sample.world).2 = ["ERROR: broken"] ∧
  read_file
    (fs (log_errors [mkError ERROR "broken"; mkError 35 "odd"; mkError CRITICAL "late"]
           (Some "/out") NOTSET Sample.world).2)
    "/out/error.log" = Some ["ERROR: broken"].
Proof.
  apply (log_errors_unknown_severity [mkError ERROR "broken"] (mkError 35 "odd")
           [mkError CRITICAL "late"] "/out" NOTSET Sample.world).
  - reflexivity.
  - vm_compute. reflexivity.
  - vm_compute. discriminate.
  - repeat constructor. intros _. vm_compute. eauto.
  - vm_compute. discriminate.
  - vm_compute. reflexivity.
Defined.

Lemma log_errors_skips_below_level_witness :
  (log_errors [mkError 5 "trace"; mkError ERROR "broken"] (Some "/out") WARNING
     Sample.world).1 = Return tt ∧
  stdout (log_errors [mkError 5 "trace"; mkError ERROR "broken"] (Some "/out") WARNING
            Sample.world).2 = ["ERROR: broken"].
Proof.
  destruct (log_errors_skips_below_level [mkError 5 "trace"; mkError ERROR "broken"]
              "/out" WARNING Sample.world) as (Hret & Hout & _).
  - reflexivity.
  - vm_compute. reflexivity.
  - vm_compute. discriminate.
  - repeat constructor.
    + intros Hle. exfalso. vm_compute in Hle. by apply Hle.
    + intros _. vm_compute. eauto.
  - split; [exact Hret | exact Hout].
Defined.

Lemma log_errors_cannot_open_witness :
  log_errors [mkError ERROR "broken"] (Some "/nowhere") NOTSET Sample.world =
    (Raise (OSError "/nowhere/error.log"), Sample.world).
Proof.
  apply (log_errors_cannot_open [mkError ERROR "broken"] "/nowhere" NOTSET Sample.world).
  - reflexivity.
  - right. split; vm_compute; [reflexivity | discriminate].
Defined.

Lemma log_errors_handlers_accumulate_witness :
  read_file
    (fs (log_errors [mkError CRITICAL "second"] (Some "/src") NOTSET
           (log_errors [mkError ERROR "first"] (Some "/out") NOTSET Sample.world).2).2)
    "/out/error.log" = Some ["ERROR: first"; "CRITICAL: second"].
Proof.
  destruct (log_errors_handlers_accumulate [mkError ERROR "first"]
              [mkError CRITICAL "second"] "/out" "/src" NOTSET NOTSET Sample.world)
    as (_ & Hboth & _).
  - reflexivity.
  - reflexivity.
  - vm_compute. discriminate.
  - vm_compute. reflexivity.
  - vm_compute. discriminate.
  - vm_compute. reflexivity.
  - vm_compute. discriminate.
  - repeat constructor. intros _. vm_compute. eauto.
  - repeat constructor. intros _. vm_compute. eauto.
  - exact Hboth.
Defined.

Lemma log_errors_keeps_other_files_witness :
  read_file (fs (log_errors [mkError ERROR "broken"] (Some "/out") NOTSET Sample.world).2)
    "/src/inv.csv" = Some ["about_file_path"; "lib.ABOUT"].
Proof.
  apply (log_errors_keeps_other_files [mkError ERROR "broken"] "/out" NOTSET
           "/src/inv.csv" ["about_file_path"; "lib.ABOUT"] Sample.world).
  - reflexivity.
  - vm_compute. discriminate.
  - vm_compute. reflexivity.
  - intros j _. apply not_elem_of_nil.
Defined.

Lemma inventory_reports_first_failure_witness :
  rejected Sample.world
    ["ERROR: Path to the <output> does not exists. Please check and correct the <output>.";
     EmptyString]
    (inventory true "xml" "/src" "/missing/inv.txt" Sample.world).
Proof.
  apply (proj1 (inventory_reports_first_failure true "xml" "/src" "/missing/inv.txt"
                  Sample.world eq_refl)).
  vm_compute. reflexivity.
Defined.

Lemma gen_calls_witness :
  calls (gen false (Some "/lic") None "/src/inv.csv" "/out" Sample.world).2 =
    [Generate false None "/src/inv.csv" "/out";
     VerifyLicenseFiles ["lib.ABOUT"; "app.ABOUT"] "/lic"].
Proof.
  apply (gen_calls false (Some "/lic") None "/src/inv.csv" "/out" Sample.world eq_refl).
Defined.

Lemma attrib_reports_witness :
  (attrib "/src" "/out/attrib.html" None false None Sample.world).1 = Return tt ∧
  stdout (attrib "/src" "/out/attrib.html" None false None Sample.world).2 =
    ["Running about-code-tool version 3.0.0"; "Generating attribution...";
     "INFO: 1 component"; "Finished."].
Proof.
  destruct (attrib_reports "/src" "/out/attrib.html" None false None Sample.world)
    as (_ & _ & Hprints).
  apply Hprints.
  - vm_compute. reflexivity.
  - repeat constructor. intros _. vm_compute. eauto.
Defined.

End MoreRuns.
